(** * URAICS revenue assurance: the TATIS360 intent router and the audit-task
      operations, embedded from
      [backend/python_codes/components/tatis360.py] and
      [backend/python_codes/components/audit_tasks.py].

    Conventions of the embedding.
    - A Python [str] is a Rocq [string]; the development covers ASCII text
      (code points below 128), on which [str.lower], [str.strip], [in] and the
      [re] classes [.] and [\w] are the functions defined in [Text] and
      [Regex].
    - [graph.run(query, ...).data()] is an external call: it either raises or
      returns rows.  Every call is recorded in a history, so that "no store
      access" is a statement about that history.
    - The Cypher text of the queries whose result shape matters is embedded
      clause by clause over a small property-graph model ([Cypher]). *)

From Stdlib Require Import String Ascii List Bool Arith ZArith QArith Qround Qabs Lia.
From Stdlib Require Import Permutation Sorted.
Import ListNotations.

Local Close Scope Q_scope.
Local Open Scope nat_scope.
Local Open Scope list_scope.
Local Open Scope string_scope.

(* ===================================================================== *)
(** ** Text primitives: [str.lower], [str.strip], [sub in s]             *)
(* ===================================================================== *)

Module Text.

Definition code (c : ascii) : nat := nat_of_ascii c.

(** [str.isspace] on ASCII: TAB, LF, VT, FF, CR, the separators FS, GS, RS,
    US and the space. *)
Definition is_space (c : ascii) : bool :=
  let n := code c in
  (((9 <=? n) && (n <=? 13)) || ((28 <=? n) && (n <=? 31)) || (n =? 32))%nat.

Definition is_upper (c : ascii) : bool :=
  let n := code c in ((65 <=? n) && (n <=? 90))%nat.

Definition is_lower (c : ascii) : bool :=
  let n := code c in ((97 <=? n) && (n <=? 122))%nat.

Definition is_digit (c : ascii) : bool :=
  let n := code c in ((48 <=? n) && (n <=? 57))%nat.

(** The [re] class [\w] on ASCII: letters, digits and the underscore. *)
Definition is_word (c : ascii) : bool :=
  is_lower c || is_upper c || is_digit c || (code c =? 95)%nat.

Definition lower_char (c : ascii) : ascii :=
  if is_upper c then ascii_of_nat (code c + 32) else c.

(** [s.lower()] *)
Fixpoint lower (s : string) : string :=
  match s with
  | EmptyString => EmptyString
  | String c s' => String (lower_char c) (lower s')
  end.

(** [s.lstrip()] *)
Fixpoint lstrip (s : string) : string :=
  match s with
  | EmptyString => EmptyString
  | String c s' => if is_space c then lstrip s' else s
  end.

(** [s.rstrip()]: a character is dropped when it is a space and everything
    after it has been dropped. *)
Fixpoint rstrip (s : string) : string :=
  match s with
  | EmptyString => EmptyString
  | String c s' =>
      match rstrip s' with
      | EmptyString => if is_space c then EmptyString else String c EmptyString
      | r => String c r
      end
  end.

(** [s.strip()] *)
Definition strip (s : string) : string := rstrip (lstrip s).

(** [s.startswith(p)], returning what follows the prefix. *)
Fixpoint strip_prefix (p s : string) : option string :=
  match p with
  | EmptyString => Some s
  | String a p' =>
      match s with
      | EmptyString => None
      | String b s' => if Ascii.eqb a b then strip_prefix p' s' else None
      end
  end.

(** [sub in s] *)
Fixpoint contains (sub s : string) : bool :=
  match strip_prefix sub s with
  | Some _ => true
  | None =>
      match s with
      | EmptyString => false
      | String _ s' => contains sub s'
      end
  end.

(** The first [n] characters of [s]. *)
Fixpoint take (n : nat) (s : string) : string :=
  match n, s with
  | S n', String c s' => String c (take n' s')
  | _, _ => EmptyString
  end.

(** The longest prefix of [s] whose characters satisfy [p], and the rest. *)
Fixpoint take_while (p : ascii -> bool) (s : string) : string :=
  match s with
  | String c s' => if p c then String c (take_while p s') else EmptyString
  | EmptyString => EmptyString
  end.

Fixpoint drop_while (p : ascii -> bool) (s : string) : string :=
  match s with
  | String c s' => if p c then drop_while p s' else s
  | EmptyString => EmptyString
  end.

Fixpoint all_chars (p : ascii -> bool) (s : string) : bool :=
  match s with
  | String c s' => p c && all_chars p s'
  | EmptyString => true
  end.

(** Python truthiness of a [str]: the empty string is falsy. *)
Definition truthy (s : string) : bool :=
  match s with EmptyString => false | _ => true end.

End Text.

(* ===================================================================== *)
(** ** The fragment of [re] used by the intent patterns                  *)
(* ===================================================================== *)

Module Regex.
Import Text.

(** Single-character classes that occur under a repetition. *)
Inductive cclass : Type :=
| AnyChar    (* .  : any character except a newline *)
| WordChar.  (* \w *)

Definition in_class (k : cclass) (c : ascii) : bool :=
  match k with
  | AnyChar => negb (code c =? 10)%nat
  | WordChar => is_word c
  end.

Inductive regex : Type :=
| Str (s : string)          (* a run of literal characters *)
| Star (k : cclass)         (* k*  greedy *)
| Plus (k : cclass)         (* k+  greedy *)
| Cat (r1 r2 : regex)       (* r1 r2 *)
| Alt (r1 r2 : regex)       (* (?:r1|r2) *)
| Group (r : regex).        (* ( r ), the capturing group number 1 *)

(** A match in progress: the text still to be read and the text captured by
    group 1 so far.  The continuation [k] is the rest of the pattern; [None]
    makes the matcher backtrack. *)
Section Matcher.
Context {R : Type}.

(** Greedy [k*]: take one more character when possible, and give it back
    when the rest of the pattern fails. *)
Fixpoint star (c : cclass) (s : string) (k : string -> option R) : option R :=
  match s with
  | String x s' =>
      if in_class c x then
        match star c s' k with
        | Some r => Some r
        | None => k s
        end
      else k s
  | EmptyString => k s
  end.

Definition plus (c : cclass) (s : string) (k : string -> option R) : option R :=
  match s with
  | String x s' => if in_class c x then star c s' k else None
  | EmptyString => None
  end.

Fixpoint rmatch (r : regex) (s : string) (g : option string)
         (k : string -> option string -> option R) : option R :=
  match r with
  | Str p =>
      match strip_prefix p s with
      | Some s' => k s' g
      | None => None
      end
  | Star c => star c s (fun s' => k s' g)
  | Plus c => plus c s (fun s' => k s' g)
  | Cat r1 r2 => rmatch r1 s g (fun s' g' => rmatch r2 s' g' k)
  | Alt r1 r2 =>
      match rmatch r1 s g k with
      | Some x => Some x
      | None => rmatch r2 s g k
      end
  | Group r1 =>
      rmatch r1 s g
        (fun s' _ => k s' (Some (take (String.length s - String.length s') s)))
  end.
End Matcher.

(** [re.match(r, s)]: a match anchored at the start of [s]; the result is the
    text of group 1, [None] when the pattern has no group. *)
Definition match_here (r : regex) (s : string) : option (option string) :=
  rmatch r s None (fun _ g => Some g).

(** [re.search(r, s)]: the leftmost position at which [r] matches. *)
Fixpoint search (r : regex) (s : string) : option (option string) :=
  match match_here r s with
  | Some g => Some g
  | None =>
      match s with
      | EmptyString => None
      | String _ s' => search r s'
      end
  end.

End Regex.

(* ===================================================================== *)
(** ** tatis360.py: intent detection                                     *)
(* ===================================================================== *)

Module Tatis360.
Import Text Regex.

(** The [params] dict returned by [detect_intent] and read by
    [generate_response] through the key ['extracted_value'] only:
    [None] is the empty dict, [Some v] is [{'extracted_value': v}], where [v]
    is [None] for Python's [None]. *)
Definition Params : Type := option (option string).

Record IntentConfig : Type := {
  patterns : list regex;
  keywords : list string
}.

(** [keyword (\w+)] *)
Definition kw_word (kw : string) : regex :=
  Cat (Str (kw ++ " ")) (Group (Plus WordChar)).

(** [keyword.*(\w+)] *)
Definition kw_any_word (kw : string) : regex :=
  Cat (Str kw) (Cat (Star AnyChar) (Group (Plus WordChar))).

(** The [intents] dict of [detect_intent], in insertion order. *)
Definition intents : list (string * IntentConfig) :=
  [ ("search_tin",
     {| patterns := [ kw_word "search"; kw_word "find"; kw_word "tin";
                      kw_word "taxpayer" ];
        keywords := [ "tin"; "search"; "find"; "taxpayer" ] |});
    ("search_name",
     {| patterns :=
          [ (* search .* (?:taxpayer|company) (.+) *)
            Cat (Str "search ")
              (Cat (Star AnyChar)
                 (Cat (Str " ")
                    (Cat (Alt (Str "taxpayer") (Str "company"))
                       (Cat (Str " ") (Group (Plus AnyChar))))));
            (* find .* (.+) *)
            Cat (Str "find ")
              (Cat (Star AnyChar) (Cat (Str " ") (Group (Plus AnyChar)))) ];
        keywords := [ "name"; "company"; "business" ] |});
    ("risk_analysis",
     {| patterns := [ kw_any_word "risk"; Str "analyze risk" ];
        keywords := [ "risk"; "flagged"; "exposure"; "profile" ] |});
    ("related",
     {| patterns := [ kw_any_word "similar"; kw_any_word "related";
                      kw_any_word "network" ];
        keywords := [ "similar"; "related"; "network"; "connected" ] |});
    ("pathway",
     {| patterns := [ kw_any_word "evidence"; kw_any_word "pathway" ];
        keywords := [ "evidence"; "pathway"; "details" ] |});
    ("sector_analysis",
     {| patterns := [ kw_word "sector"; kw_word "industry" ];
        keywords := [ "sector"; "industry"; "agriculture"; "manufacturing";
                      "services" ] |});
    ("high_impact",
     {| patterns := [ Cat (Str "high") (Cat (Star AnyChar) (Str "impact"));
                      Cat (Str "top") (Cat (Star AnyChar) (Str "cases"));
                      Str "priority" ];
        keywords := [ "high"; "impact"; "priority"; "urgent" ] |}) ].

(** The inner loop over [config['patterns']]: the first pattern found by
    [re.search] decides, and yields [match.group(1)] (or [None] when the
    pattern has no group). *)
Fixpoint first_pattern (ps : list regex) (s : string) : option (option string) :=
  match ps with
  | [] => None
  | p :: ps' =>
      match search p s with
      | Some g => Some g
      | None => first_pattern ps' s
      end
  end.

(** [any(keyword in user_input for keyword in config['keywords'])] *)
Definition keyword_hit (c : IntentConfig) (s : string) : bool :=
  existsb (fun kw => contains kw s) (keywords c).

Definition pattern_hit (c : IntentConfig) (s : string) : bool :=
  match first_pattern (patterns c) s with Some _ => true | None => false end.

(** The loop [for intent, config in intents.items()]. *)
Fixpoint scan (defs : list (string * IntentConfig)) (s : string) : string * Params :=
  match defs with
  | [] => ("help", None)
  | (intent, config) :: rest =>
      match first_pattern (patterns config) s with
      | Some g => (intent, Some g)
      | None =>
          if keyword_hit config s then (intent, None) else scan rest s
      end
  end.

Definition normalize (user_input : string) : string := strip (lower user_input).

Definition detect_intent (user_input : string) : string * Params :=
  scan intents (normalize user_input).

(* --------------------------------------------------------------------- *)
(** *** The rows returned by the query templates                          *)
(* --------------------------------------------------------------------- *)

(** A Cypher value that may be [null] is an [option]. *)

Record TaxpayerInfo : Type := {
  ti_tin : option string;
  ti_name : option string;
  ti_region : option string;
  ti_sector : option string;
  ti_status : option string;
  ti_createdDate : option string
}.

Record RiskEntry : Type := {
  re_riskId : option string;
  re_riskName : option string;
  re_severity : option string;
  re_exposureAmount : option Z;
  re_detectedDate : option string
}.

Record ITReturnEntry : Type := {
  it_returnId : option string;
  it_year : option Z;
  it_filedDate : option string;
  it_totalIncome : option Z
}.

Record EfrisReturnEntry : Type := {
  ef_returnId : option string;
  ef_period : option string;
  ef_totalSales : option Z;
  ef_vat : option Z
}.

(** The map [result] of [search_taxpayer_by_tin].  An entry of a collected
    list is [None] when it is falsy in Python (the comprehensions of
    [generate_response] keep the truthy ones). *)
Record TinResult : Type := {
  taxpayer : TaxpayerInfo;
  risks : list (option RiskEntry);
  itReturns : list (option ITReturnEntry);
  efrisReturns : list (option EfrisReturnEntry)
}.

(** The map [taxpayer] of [search_taxpayer_by_name]. *)
Record NameRow : Type := {
  nr_tin : option string;
  nr_name : option string;
  nr_region : option string;
  nr_sector : option string;
  nr_status : option string;
  nr_riskCount : nat;
  nr_totalExposure : Z
}.

(** The map [related] of [find_related_taxpayers]. *)
Record RelatedRow : Type := {
  rr_tin : option string;
  rr_name : option string;
  rr_region : option string;
  rr_sector : option string;
  rr_sharedRisks : nat;
  rr_similarityScore : Q;
  rr_exposure : Z
}.

(** The map [pathway] of [get_risk_pathway]. *)
Record PathwayRow : Type := {
  pw_riskId : option string;
  pw_riskName : option string;
  pw_description : option string;
  pw_severity : option string;
  pw_exposureAmount : option Z;
  pw_detectedDate : option string;
  pw_evidence : option string;
  pw_itReturn : ITReturnEntry;
  pw_efrisReturn : EfrisReturnEntry;
  pw_varianceAmount : option Z
}.

(** The map [case] of [find_high_impact_cases]: one flagged relationship when
    a risk is given, one taxpayer with its aggregates otherwise. *)
Inductive CaseRow : Type :=
| CaseOfRisk (tin name region sector riskId riskName : option string)
             (exposure : Z) (detectedDate : option string)
| CaseOfTaxpayer (tin name region sector : option string)
                 (riskCount : nat) (totalExposure : Z).

(** The value the query sorts by: [exposure], resp. [totalExposure]. *)
Definition case_exposure (c : CaseRow) : Z :=
  match c with
  | CaseOfRisk _ _ _ _ _ _ e _ => e
  | CaseOfTaxpayer _ _ _ _ _ e => e
  end.

(** The map [riskProfile] of [get_sector_risk_profile]. *)
Record SectorRow : Type := {
  sr_sector : option string;
  sr_riskId : option string;
  sr_riskName : option string;
  sr_severity : option string;
  sr_prevalence : nat;
  sr_totalExposure : Z;
  sr_averageExposure : Z
}.

(* --------------------------------------------------------------------- *)
(** *** The store handle and the computations that use it                 *)
(* --------------------------------------------------------------------- *)

(** One call of [graph.run]: the query template with its parameters. *)
Inductive Query : Type :=
| QTaxpayerByTin (tin : string)
| QTaxpayerByName (name : option string)
| QRelated (tin : string)
| QRiskPathway (tin : string) (risk_id : option string)
| QHighImpactOfRisk (risk_id : string) (min_exposure : Z)
| QHighImpact (min_exposure : Z)
| QSectorProfile (sector : option string).

(** [graph.run(...).data()] raises or returns rows. *)
Inductive outcome (A : Type) : Type :=
| Raised
| Rows (rows : list A).
Arguments Raised {A}.
Arguments Rows {A} rows.

(** The handle [graph]: what the store answers to each template, given the
    calls made before (a store may fail now and answer later). *)
Record Graph : Type := {
  run_tin : list Query -> string -> outcome TinResult;
  run_name : list Query -> option string -> outcome NameRow;
  run_related : list Query -> string -> outcome RelatedRow;
  run_pathway : list Query -> string -> option string -> outcome PathwayRow;
  run_high_of_risk : list Query -> string -> Z -> outcome CaseRow;
  run_high : list Query -> Z -> outcome CaseRow;
  run_sector : list Query -> option string -> outcome SectorRow
}.

Inductive exn : Type :=
| StoreError   (* raised by [graph.run] *)
| TypeError.   (* arithmetic or subscript on [None] *)

Inductive result (A : Type) : Type :=
| Ok (a : A)
| Raise (e : exn).
Arguments Ok {A} a.
Arguments Raise {A} e.

(** A computation reads and extends the history of store calls and returns a
    value or raises. *)
Definition Comp (A : Type) : Type := list Query -> result A * list Query.

Definition ret {A : Type} (a : A) : Comp A := fun h => (Ok a, h).

Definition raise {A : Type} (e : exn) : Comp A := fun h => (Raise e, h).

Definition bind {A B : Type} (c : Comp A) (f : A -> Comp B) : Comp B :=
  fun h =>
    match c h with
    | (Ok a, h') => f a h'
    | (Raise e, h') => (Raise e, h')
    end.

Notation "x <- c ;; k" := (bind c (fun x => k))
  (at level 61, c at next level, right associativity).

(** [try: c  except Exception as e: logger.error(...); return d] *)
Definition try_except {A : Type} (c : Comp A) (d : A) : Comp A :=
  fun h =>
    match c h with
    | (Ok a, h') => (Ok a, h')
    | (Raise _, h') => (Ok d, h')
    end.

(** One store call: it is appended to the history. *)
Definition call {A : Type} (q : Query) (answer : list Query -> outcome A)
  : Comp (list A) :=
  fun h =>
    (match answer h with Raised => Raise StoreError | Rows l => Ok l end,
     (h ++ [q])%list).

(** [result[0][...] if result else None] *)
Definition first_row {A : Type} (rows : list A) : option A :=
  match rows with [] => None | r :: _ => Some r end.

(* --------------------------------------------------------------------- *)
(** *** The query functions                                                *)
(* --------------------------------------------------------------------- *)

Definition search_taxpayer_by_tin (graph : Graph) (tin : string)
  : Comp (option TinResult) :=
  try_except
    (rows <- call (QTaxpayerByTin tin) (fun h => run_tin graph h tin) ;;
     ret (first_row rows))
    None.

Definition search_taxpayer_by_name (graph : Graph) (name : option string)
  : Comp (list NameRow) :=
  try_except
    (rows <- call (QTaxpayerByName name) (fun h => run_name graph h name) ;;
     ret rows)
    [].

Definition find_related_taxpayers (graph : Graph) (tin : string)
  : Comp (list RelatedRow) :=
  try_except
    (rows <- call (QRelated tin) (fun h => run_related graph h tin) ;;
     ret rows)
    [].

Definition get_risk_pathway (graph : Graph) (tin : string)
           (risk_id : option string) : Comp (option PathwayRow) :=
  try_except
    (rows <- call (QRiskPathway tin risk_id)
                  (fun h => run_pathway graph h tin risk_id) ;;
     ret (first_row rows))
    None.

(** The default of [min_exposure]: [1e9]. *)
Definition default_min_exposure : Z := 1000000000.

(** [if risk_id:] is false for [None] and for the empty string. *)
Definition find_high_impact_cases (graph : Graph) (risk_id : option string)
           (min_exposure : Z) : Comp (list CaseRow) :=
  try_except
    (match risk_id with
     | Some (String c r) =>
         rows <- call (QHighImpactOfRisk (String c r) min_exposure)
                      (fun h => run_high_of_risk graph h (String c r) min_exposure) ;;
         ret rows
     | _ =>
         rows <- call (QHighImpact min_exposure)
                      (fun h => run_high graph h min_exposure) ;;
         ret rows
     end)
    [].

Definition get_sector_risk_profile (graph : Graph) (sector : option string)
  : Comp (list SectorRow) :=
  try_except
    (rows <- call (QSectorProfile sector) (fun h => run_sector graph h sector) ;;
     ret rows)
    [].

(* --------------------------------------------------------------------- *)
(** *** [generate_response]                                                *)
(* --------------------------------------------------------------------- *)

(** [params.get('extracted_value')] *)
Definition get_value (params : Params) : option string :=
  match params with
  | Some v => v
  | None => None
  end.

(** [params.get('extracted_value', d)]: the default stands in for an absent
    key only. *)
Definition get_value_or (params : Params) (d : string) : option string :=
  match params with
  | Some v => v
  | None => Some d
  end.

(** [if tin:] for [tin] a string or [None]. *)
Definition truthy_opt (v : option string) : option string :=
  match v with
  | Some s => if truthy s then Some s else None
  | None => None
  end.

(** [[r for r in xs if r]] *)
Fixpoint truthy_entries {A : Type} (xs : list (option A)) : list A :=
  match xs with
  | [] => []
  | Some r :: xs' => r :: truthy_entries xs'
  | None :: xs' => truthy_entries xs'
  end.

(** [sum([r.get('exposureAmount', 0) for r in ...])]: adding [None] raises. *)
Fixpoint sum_exposure (rs : list RiskEntry) (acc : Z) : result Z :=
  match rs with
  | [] => Ok acc
  | r :: rs' =>
      match re_exposureAmount r with
      | Some e => sum_exposure rs' (acc + e)%Z
      | None => Raise TypeError
      end
  end.

(** The conditional expression of the line "Recommended Action". *)
Definition recommended_action (risk_count : nat) : string :=
  if (10 <=? risk_count)%nat then "CRITICAL - Immediate Audit"
  else if (5 <=? risk_count)%nat then "HIGH PRIORITY - Schedule Audit"
  else if (2 <=? risk_count)%nat then "MEDIUM - Review Risk Profile"
  else "LOW - Routine Monitoring".

(** The fields interpolated in the "Found Taxpayer" text. *)
Record Profile : Type := {
  pf_name : option string;
  pf_tin : option string;
  pf_region : option string;
  pf_sector : option string;
  pf_status : option string;
  pf_risk_count : nat;
  pf_exposure : Z;
  pf_it_returns : nat;
  pf_efris_returns : nat;
  pf_action : string
}.

(** The response texts, one constructor per string of [generate_response],
    with the interpolated values as arguments (rendering numbers to text is
    left to Python). *)
Inductive Response : Type :=
| FoundTaxpayer (p : Profile)               (* "✅ **Found Taxpayer** ..." *)
| TaxpayerNotFound (tin : string)           (* "❌ Taxpayer with TIN {tin} not found" *)
| AskTin                                    (* "❓ Please provide a TIN number to search" *)
| FoundByName (n : nat) (name : option string)
                                            (* "✅ Found {n} taxpayers matching '{name}'" *)
| NoneByName (name : option string)         (* "❌ No taxpayers found with name containing '{name}'" *)
| FoundRelated (n : nat) (tin : string)     (* "✅ Found {n} taxpayers with similar risk profiles to {tin}" *)
| NoRelated                                 (* "❌ No related taxpayers found" *)
| AskTinRelated                             (* "❓ Please provide a TIN to find related taxpayers" *)
| FoundPathway (name risk_id risk_name : option string) (exposure : Z)
               (detected : option string)   (* "✅ **Evidence Pathway for ..." *)
| NoPathway                                 (* "❌ No evidence pathway found" *)
| AskTinPathway                             (* "❓ Please provide a TIN" *)
| FoundCases (n : nat)                      (* "✅ Found {n} high-impact audit cases ..." *)
| NoCases                                   (* "❌ No high-impact cases found" *)
| FoundSector (sector : option string) (n : nat)
                                            (* "✅ **Risk Profile for {sector} Sector** ..." *)
| NoSector (sector : option string)         (* "❌ No data available for {sector} sector" *)
| Help.                                     (* the capability summary *)

(** The second component of the answer: [{'type': ..., 'data': ...}]; the
    empty dict is [None]. *)
Inductive Payload : Type :=
| PTaxpayer (data : TinResult)
| PSearchResults (data : list NameRow)
| PRelated (data : list RelatedRow)
| PPathway (data : PathwayRow)
| PCases (data : list CaseRow)
| PSector (data : list SectorRow).

(** The kind of an answer, as the spec names them: a text that asks for a
    value (❓), one that reports nothing found (❌), one that reports a result
    (✅), and the help text. *)
Inductive Kind : Type := KPrompt | KEmpty | KResult | KHelp.

Definition kind_of (r : Response) : Kind :=
  match r with
  | AskTin | AskTinRelated | AskTinPathway => KPrompt
  | TaxpayerNotFound _ | NoneByName _ | NoRelated | NoPathway | NoCases
  | NoSector _ => KEmpty
  | FoundTaxpayer _ | FoundByName _ _ | FoundRelated _ _
  | FoundPathway _ _ _ _ _ | FoundCases _ | FoundSector _ _ => KResult
  | Help => KHelp
  end.

Definition lift {A : Type} (r : result A) : Comp A := fun h => (r, h).

Definition generate_response (graph : Graph) (intent : string) (params : Params)
           (user_input : string) : Comp (Response * option Payload) :=
  if String.eqb intent "search_tin" then
    match truthy_opt (get_value params) with
    | Some tin =>
        result <- search_taxpayer_by_tin graph tin ;;
        match result with
        | Some r =>
            let risk_count := List.length (truthy_entries (risks r)) in
            exposure <- lift (sum_exposure (truthy_entries (risks r)) 0%Z) ;;
            ret (FoundTaxpayer
                   {| pf_name := ti_name (taxpayer r);
                      pf_tin := ti_tin (taxpayer r);
                      pf_region := ti_region (taxpayer r);
                      pf_sector := ti_sector (taxpayer r);
                      pf_status := ti_status (taxpayer r);
                      pf_risk_count := risk_count;
                      pf_exposure := exposure;
                      pf_it_returns := List.length (truthy_entries (itReturns r));
                      pf_efris_returns := List.length (truthy_entries (efrisReturns r));
                      pf_action := recommended_action risk_count |},
                 Some (PTaxpayer r))
        | None => ret (TaxpayerNotFound tin, None)
        end
    | None => ret (AskTin, None)
    end
  else if String.eqb intent "search_name" then
    let name := get_value_or params "" in
    results <- search_taxpayer_by_name graph name ;;
    match results with
    | _ :: _ => ret (FoundByName (List.length results) name,
                     Some (PSearchResults results))
    | [] => ret (NoneByName name, None)
    end
  else if String.eqb intent "related" then
    match truthy_opt (get_value params) with
    | Some tin =>
        related <- find_related_taxpayers graph tin ;;
        match related with
        | _ :: _ => ret (FoundRelated (List.length related) tin,
                         Some (PRelated related))
        | [] => ret (NoRelated, None)
        end
    | None => ret (AskTinRelated, None)
    end
  else if String.eqb intent "pathway" then
    match truthy_opt (get_value params) with
    | Some tin =>
        found <- search_taxpayer_by_tin graph tin ;;
        match found with
        | Some r =>
            match risks r with
            | first :: _ =>
                match first with
                | Some risk =>
                    let risk_id := re_riskId risk in
                    pathway <- get_risk_pathway graph tin risk_id ;;
                    match pathway with
                    | Some pw =>
                        match pw_exposureAmount pw with
                        | Some e =>
                            ret (FoundPathway (ti_name (taxpayer r)) risk_id
                                   (pw_riskName pw) e (pw_detectedDate pw),
                                 Some (PPathway pw))
                        | None => raise TypeError
                        end
                    | None => ret (NoPathway, None)
                    end
                | None => raise TypeError
                end
            | [] => ret (NoPathway, None)
            end
        | None => ret (NoPathway, None)
        end
    | None => ret (AskTinPathway, None)
    end
  else if String.eqb intent "high_impact" then
    cases <- find_high_impact_cases graph None default_min_exposure ;;
    match cases with
    | _ :: _ => ret (FoundCases (List.length cases), Some (PCases cases))
    | [] => ret (NoCases, None)
    end
  else if String.eqb intent "sector_analysis" then
    let sector := get_value_or params "Manufacturing" in
    profile <- get_sector_risk_profile graph sector ;;
    match profile with
    | _ :: _ => ret (FoundSector sector (List.length profile),
                     Some (PSector profile))
    | [] => ret (NoSector sector, None)
    end
  else ret (Help, None).

End Tatis360.

(* ===================================================================== *)
(** ** tatis360.py: the Cypher text of three query templates             *)
(* ===================================================================== *)

(** The queries of [search_taxpayer_by_name], [find_related_taxpayers] and
    [find_high_impact_cases], clause by clause, over a property graph of
    [Taxpayer] nodes, [RiskFlag] nodes and [FLAGGED_BY] relationships.  A node
    is named by its position in the list of its label; a property that is not
    set is [None] (Cypher's [null]).  Amounts are whole currency units. *)

Module Cypher.
Import Text Tatis360.
Local Open Scope nat_scope.

Record Taxpayer : Type := {
  TIN : option string;
  TaxpayerName : option string;
  Region : option string;
  Sector : option string;
  ComplianceStatus : option string
}.

Record RiskFlag : Type := {
  RiskID : option string;
  RiskName : option string;
  Severity : option string
}.

Record FlaggedBy : Type := {
  fb_taxpayer : nat;         (* start node *)
  fb_risk : nat;             (* end node *)
  ExposureAmount : option Z;
  DetectedDate : option string
}.

Record GraphDB : Type := {
  taxpayers : list Taxpayer;
  risk_flags : list RiskFlag;
  flagged_by : list FlaggedBy
}.

(** One match of [(t:Taxpayer)-[flagged:FLAGGED_BY]->(rf:RiskFlag)]. *)
Record Flagging : Type := {
  f_t : nat;
  f_taxpayer : Taxpayer;
  f_edge : FlaggedBy;
  f_rf : nat;
  f_risk : RiskFlag
}.

Definition flagging_of (db : GraphDB) (e : FlaggedBy) : list Flagging :=
  match nth_error (taxpayers db) (fb_taxpayer e),
        nth_error (risk_flags db) (fb_risk e) with
  | Some t, Some rf =>
      [ {| f_t := fb_taxpayer e; f_taxpayer := t; f_edge := e;
           f_rf := fb_risk e; f_risk := rf |} ]
  | _, _ => []
  end.

Definition flaggings (db : GraphDB) : list Flagging :=
  flat_map (flagging_of db) (flagged_by db).

(** [COUNT(DISTINCT n)] over node names. *)
Definition count_distinct (ids : list nat) : nat :=
  List.length (nodup Nat.eq_dec ids).

(** [SUM(x)]: [null] values are skipped, and the sum of nothing is 0. *)
Fixpoint sum_amounts (xs : list (option Z)) : Z :=
  match xs with
  | [] => 0%Z
  | Some x :: xs' => (x + sum_amounts xs')%Z
  | None :: xs' => sum_amounts xs'
  end.

(** [ORDER BY key DESC]: a stable insertion sort. *)
Fixpoint insert_desc {A : Type} (key : A -> Z) (x : A) (l : list A) : list A :=
  match l with
  | [] => [x]
  | y :: l' =>
      if (key x <? key y)%Z then y :: insert_desc key x l' else x :: y :: l'
  end.

Definition order_by_desc {A : Type} (key : A -> Z) (l : list A) : list A :=
  fold_right (insert_desc key) [] l.

(** [LIMIT n] *)
Definition limit {A : Type} (n : nat) (l : list A) : list A := firstn n l.

(** [ROUND(x, 1)] for [x >= 0]: the nearest tenth, halves upwards. *)
Definition ROUND1 (x : Q) : Q :=
  Qmake (Qfloor (x * (10 # 1) + (1 # 2))%Q) 10.

(** [x >= $min_exposure], which is not true when [x] is [null]. *)
Definition at_least (min_exposure : Z) (x : option Z) : bool :=
  match x with
  | Some e => (min_exposure <=? e)%Z
  | None => false
  end.

(** [{TIN: $tin}] and [t2.TIN <> $tin]; neither holds for a [null] TIN. *)
Definition tin_is (tin : string) (t : Taxpayer) : bool :=
  match TIN t with Some x => String.eqb x tin | None => false end.

Definition tin_differs (tin : string) (t : Taxpayer) : bool :=
  match TIN t with Some x => negb (String.eqb x tin) | None => false end.

(* ---- search_taxpayer_by_name ---------------------------------------- *)

(** [WHERE toLower(t.TaxpayerName) CONTAINS toLower($name)] *)
Definition name_contains (name : option string) (t : Taxpayer) : bool :=
  match TaxpayerName t, name with
  | Some tn, Some n => contains (lower n) (lower tn)
  | _, _ => false
  end.

(** [MATCH (t:Taxpayer) WHERE ... OPTIONAL MATCH (t)-[flagged]->(rf)]: one
    row for each flagging of a matching taxpayer, and one row without
    flagging for a matching taxpayer that has none. *)
Definition name_rows (db : GraphDB) (name : option string)
  : list (Taxpayer * option Flagging) :=
  flat_map
    (fun it : nat * Taxpayer =>
       let (i, t) := it in
       if name_contains name t then
         match filter (fun m => f_t m =? i) (flaggings db) with
         | [] => [(t, None)]
         | ms => map (fun m => (t, Some m)) ms
         end
       else [])
    (combine (seq 0 (List.length (taxpayers db))) (taxpayers db)).

Definition taxpayer_eq_dec (a b : Taxpayer) : {a = b} + {a <> b}.
Proof. repeat decide equality. Defined.

Definition same_taxpayer (a b : Taxpayer) : bool :=
  if taxpayer_eq_dec a b then true else false.

(** The rows are grouped by the five projected properties of [t]. *)
Definition name_group (rows : list (Taxpayer * option Flagging)) (k : Taxpayer)
  : NameRow :=
  let members := filter (fun r => same_taxpayer (fst r) k) rows in
  {| nr_tin := TIN k;
     nr_name := TaxpayerName k;
     nr_region := Region k;
     nr_sector := Sector k;
     nr_status := ComplianceStatus k;
     nr_riskCount :=
       count_distinct
         (flat_map (fun r => match snd r with Some m => [f_rf m] | None => [] end)
                   members);
     nr_totalExposure :=
       sum_amounts
         (map (fun r => match snd r with
                        | Some m => ExposureAmount (f_edge m)
                        | None => None
                        end)
              members) |}.

Definition query_name (db : GraphDB) (name : option string) : list NameRow :=
  let rows := name_rows db name in
  let keys := nodup taxpayer_eq_dec (map fst rows) in
  limit 10 (order_by_desc nr_totalExposure (map (name_group rows) keys)).

(* ---- find_related_taxpayers ----------------------------------------- *)

(** [MATCH (t {TIN: $tin})-[flagged]->(rf) MATCH (rf)<-[related]-(t2)
    WHERE t2.TIN <> $tin]: the row is the flagging [(t2)-[related]->(rf)]. *)
Definition related_rows (db : GraphDB) (tin : string) : list Flagging :=
  flat_map
    (fun m1 =>
       if tin_is tin (f_taxpayer m1) then
         filter (fun m2 => (f_rf m2 =? f_rf m1) && tin_differs tin (f_taxpayer m2))
                (flaggings db)
       else [])
    (flaggings db).

(** [ROUND(100.0 * shared_risk_count / 18, 1)] *)
Definition similarity (shared_risk_count : nat) : Q :=
  ROUND1 ((100 # 1) * (Z.of_nat shared_risk_count # 1) / (18 # 1))%Q.

(** [WITH t2, COUNT(DISTINCT rf) AS shared_risk_count,
          SUM(related.ExposureAmount) AS avg_exposure], then the map. *)
Definition related_group (rows : list Flagging) (t2 : nat) : list RelatedRow :=
  match filter (fun m => f_t m =? t2) rows with
  | [] => []
  | m :: ms =>
      let members := m :: ms in
      let shared_risk_count := count_distinct (map f_rf members) in
      let avg_exposure :=
        sum_amounts (map (fun x => ExposureAmount (f_edge x)) members) in
      [ {| rr_tin := TIN (f_taxpayer m);
           rr_name := TaxpayerName (f_taxpayer m);
           rr_region := Region (f_taxpayer m);
           rr_sector := Sector (f_taxpayer m);
           rr_sharedRisks := shared_risk_count;
           rr_similarityScore := similarity shared_risk_count;
           rr_exposure := avg_exposure |} ]
  end.

Definition query_related (db : GraphDB) (tin : string) : list RelatedRow :=
  let rows := related_rows db tin in
  let keys := nodup Nat.eq_dec (map f_t rows) in
  limit 10
    (order_by_desc (fun r => Z.of_nat (rr_sharedRisks r))
       (flat_map (related_group rows) keys)).

(* ---- find_high_impact_cases ----------------------------------------- *)

Definition risk_is (risk_id : string) (rf : RiskFlag) : bool :=
  match RiskID rf with Some x => String.eqb x risk_id | None => false end.

(** The branch with [$risk_id]: one row for each flagging. *)
Definition case_of_flagging (m : Flagging) : list CaseRow :=
  match ExposureAmount (f_edge m) with
  | Some e =>
      [ CaseOfRisk (TIN (f_taxpayer m)) (TaxpayerName (f_taxpayer m))
          (Region (f_taxpayer m)) (Sector (f_taxpayer m))
          (RiskID (f_risk m)) (RiskName (f_risk m)) e
          (DetectedDate (f_edge m)) ]
  | None => []
  end.

Definition query_high_of_risk (db : GraphDB) (risk_id : string)
           (min_exposure : Z) : list CaseRow :=
  let rows :=
    filter (fun m => risk_is risk_id (f_risk m) &&
                     at_least min_exposure (ExposureAmount (f_edge m)))
           (flaggings db) in
  limit 20 (order_by_desc case_exposure (flat_map case_of_flagging rows)).

(** The branch without: the rows are grouped by the four projected
    properties of [t]. *)
Definition CaseKey : Type :=
  (option string * option string * option string * option string)%type.

Definition case_key (t : Taxpayer) : CaseKey :=
  (TIN t, TaxpayerName t, Region t, Sector t).

Definition case_key_eq_dec (a b : CaseKey) : {a = b} + {a <> b}.
Proof. repeat decide equality. Defined.

Definition same_case_key (a b : CaseKey) : bool :=
  if case_key_eq_dec a b then true else false.

Definition case_group (rows : list Flagging) (k : CaseKey) : CaseRow :=
  let members := filter (fun m => same_case_key (case_key (f_taxpayer m)) k) rows in
  match k with
  | (tin, name, region, sector) =>
      CaseOfTaxpayer tin name region sector
        (count_distinct (map f_rf members))
        (sum_amounts (map (fun m => ExposureAmount (f_edge m)) members))
  end.

Definition query_high (db : GraphDB) (min_exposure : Z) : list CaseRow :=
  let rows :=
    filter (fun m => at_least min_exposure (ExposureAmount (f_edge m)))
           (flaggings db) in
  let keys := nodup case_key_eq_dec (map (fun m => case_key (f_taxpayer m)) rows) in
  limit 20 (order_by_desc case_exposure (map (case_group rows) keys)).

(** A handle on a store that holds [db]: a call raises when [fails] says so
    (the connection is lost, or the server rejects the text of the query) and
    otherwise returns the rows of the query.  The three templates that are not
    embedded are answered by [other]. *)
Definition neo4j (db : GraphDB) (fails : list Query -> Query -> bool)
           (other : Graph) : Graph :=
  {| run_tin := run_tin other;
     run_name := fun h name =>
       if fails h (QTaxpayerByName name) then Raised
       else Rows (query_name db name);
     run_related := fun h tin =>
       if fails h (QRelated tin) then Raised else Rows (query_related db tin);
     run_pathway := run_pathway other;
     run_high_of_risk := fun h risk_id min_exposure =>
       if fails h (QHighImpactOfRisk risk_id min_exposure) then Raised
       else Rows (query_high_of_risk db risk_id min_exposure);
     run_high := fun h min_exposure =>
       if fails h (QHighImpact min_exposure) then Raised
       else Rows (query_high db min_exposure);
     run_sector := run_sector other |}.

End Cypher.

(* ===================================================================== *)
(** ** audit_tasks.py: the write operations                              *)
(* ===================================================================== *)

(** The write queries act on [AuditTask] nodes and on their relationships.
    A node is named by its key property ([TaskID], [TIN], [AuditorID],
    [RiskID]); a key that occurs twice stands for two nodes.  [datetime()] is
    the reading [now] of the server clock. *)

Module AuditTasks.
Import Text.

Record AuditTask : Type := {
  TaskID : string;
  TaskName : string;
  Description : string;
  Status : string;
  Priority : string;
  AssignedDate : nat;
  DueDate : Z;
  ExposureAmount : Z;
  ProgressPercent : Z;
  Notes : option string;
  CreatedDate : nat;
  CompletedDate : option nat;
  LastUpdated : option nat
}.

Record TaskGraph : Type := {
  tasks : list AuditTask;
  taxpayer_tins : list string;             (* the Taxpayer nodes *)
  auditor_ids : list string;               (* the Auditor nodes *)
  risk_ids : list string;                  (* the RiskFlag nodes *)
  assigned_to : list (string * string);    (* (AuditorID, TaskID) *)
  targets : list (string * string);        (* (TaskID, TIN) *)
  linked_to : list (string * string)       (* (TaskID, RiskID) *)
}.

(** What the surroundings do during one operation. *)
Record Env : Type := {
  now : nat;                   (* datetime() and datetime.now() *)
  raises : nat -> bool;        (* does the n-th [graph.run] of the operation raise? *)
  randomUUID : nat -> string;  (* the identifier given to the n-th created node *)
  strftime : nat -> string;    (* the clock reading as '%Y-%m-%d %H:%M' *)
  optional_keeps_row : bool
    (* [OPTIONAL MATCH (task) WHERE c] on a bound [task]: [true] when the row
       stays with [task] bound although [c] is false (so that the [SET] that
       follows applies), [false] when the [SET] applies only where [c] holds *)
}.

(** The calls made after the first one of an operation. *)
Definition later (env : Env) : Env :=
  {| now := now env;
     raises := fun n => raises env (S n);
     randomUUID := randomUUID env;
     strftime := strftime env;
     optional_keeps_row := optional_keeps_row env |}.

(** The task data of [create_audit_task]; the keys read with [.get] are
    optional. *)
Record TaskData : Type := {
  taxpayer_tin : string;
  auditor_id : string;
  task_name : string;
  due_date : Z;                      (* epoch milliseconds *)
  description : option string;
  priority : option string;
  exposure : option Z;
  notes : option string;
  assigned_by : option string;
  td_risk_ids : option (list string)
}.

Definition get_or {A : Type} (v : option A) (d : A) : A :=
  match v with Some x => x | None => d end.

Definition with_tasks (g : TaskGraph) (ts : list AuditTask) : TaskGraph :=
  {| tasks := ts;
     taxpayer_tins := taxpayer_tins g;
     auditor_ids := auditor_ids g;
     risk_ids := risk_ids g;
     assigned_to := assigned_to g;
     targets := targets g;
     linked_to := linked_to g |}.

(** [MATCH (task:AuditTask {TaskID: $task_id})] *)
Definition is_task (task_id : string) (t : AuditTask) : bool :=
  String.eqb (TaskID t) task_id.

Definition matched (task_id : string) (g : TaskGraph) : bool :=
  existsb (is_task task_id) (tasks g).

(** [MATCH (task {TaskID: $task_id}) SET ...]: the update [f] on every
    matched task. *)
Definition set_tasks (task_id : string) (f : AuditTask -> AuditTask)
           (g : TaskGraph) : TaskGraph :=
  with_tasks g (map (fun t => if is_task task_id t then f t else t) (tasks g)).

Definition count_eq (x : string) (l : list string) : nat :=
  List.length (filter (String.eqb x) l).

(** The task created for the [n]-th pair of a taxpayer and an auditor. *)
Definition new_task (env : Env) (d : TaskData) (n : nat) : AuditTask :=
  {| TaskID := randomUUID env n;
     TaskName := task_name d;
     Description := get_or (description d) "";
     Status := "Assigned";
     Priority := get_or (priority d) "Medium";
     AssignedDate := now env;
     DueDate := due_date d;
     ExposureAmount := get_or (exposure d) 0%Z;
     ProgressPercent := 0%Z;
     Notes := Some (get_or (notes d) "");
     CreatedDate := now env;
     CompletedDate := None;
     LastUpdated := None |}.

(** [create_audit_task]: one task for every pair of a matching taxpayer and a
    matching auditor; rows are returned for the links to the risk flags. *)
Definition create_audit_task (env : Env) (d : TaskData) (g : TaskGraph)
  : bool * TaskGraph :=
  if raises env 0 then (false, g)
  else
    let pairs :=
      count_eq (taxpayer_tin d) (taxpayer_tins g) *
      count_eq (auditor_id d) (auditor_ids g) in
    let created := map (new_task env d) (seq 0 pairs) in
    let linked :=
      filter (fun r => existsb (String.eqb r) (get_or (td_risk_ids d) []))
             (risk_ids g) in
    (match created, linked with
     | _ :: _, _ :: _ => true
     | _, _ => false
     end,
     {| tasks := (tasks g ++ created)%list;
        taxpayer_tins := taxpayer_tins g;
        auditor_ids := auditor_ids g;
        risk_ids := risk_ids g;
        assigned_to :=
          (assigned_to g ++ map (fun t => (auditor_id d, TaskID t)) created)%list;
        targets :=
          (targets g ++ map (fun t => (TaskID t, taxpayer_tin d)) created)%list;
        linked_to :=
          (linked_to g ++
           flat_map (fun t => map (fun r => (TaskID t, r)) linked) created)%list |}).

(** [CASE WHEN task.Notes IS NULL THEN $note ELSE task.Notes + '\n' + $note] *)
Definition append_note (old : option string) (note : string) : option string :=
  match old with
  | None => Some note
  | Some n => Some (n ++ String (ascii_of_nat 10) note)
  end.

Definition add_task_note (env : Env) (task_id note : string) (g : TaskGraph)
  : bool * TaskGraph :=
  if raises env 0 then (false, g)
  else
    let stamped := "[" ++ strftime env (now env) ++ "] " ++ note in
    (matched task_id g,
     set_tasks task_id
       (fun t =>
          {| TaskID := TaskID t; TaskName := TaskName t;
             Description := Description t; Status := Status t;
             Priority := Priority t; AssignedDate := AssignedDate t;
             DueDate := DueDate t; ExposureAmount := ExposureAmount t;
             ProgressPercent := ProgressPercent t;
             Notes := append_note (Notes t) stamped;
             CreatedDate := CreatedDate t; CompletedDate := CompletedDate t;
             LastUpdated := Some (now env) |})
       g).

(** [update_task_status].  The query sets [Status] and [LastUpdated]; its
    [OPTIONAL MATCH (task)-[relation:ASSIGNED_TO]->(task)] looks for a
    relationship from the task to itself, of which there is none; then comes
    [OPTIONAL MATCH (task) WHERE task.Status = 'Completed'
     SET task.CompletedDate = datetime()].  A non-empty [notes] is recorded
    with a second call, through [add_task_note]. *)
Definition update_task_status (env : Env) (task_id new_status notes : string)
           (g : TaskGraph) : bool * TaskGraph :=
  if raises env 0 then (false, g)
  else
    let g1 :=
      set_tasks task_id
        (fun t =>
           {| TaskID := TaskID t; TaskName := TaskName t;
              Description := Description t; Status := new_status;
              Priority := Priority t; AssignedDate := AssignedDate t;
              DueDate := DueDate t; ExposureAmount := ExposureAmount t;
              ProgressPercent := ProgressPercent t;
              Notes := Notes t;
              CreatedDate := CreatedDate t;
              CompletedDate :=
                if optional_keeps_row env || String.eqb new_status "Completed"
                then Some (now env) else CompletedDate t;
              LastUpdated := Some (now env) |})
        g in
    let g2 :=
      if truthy notes then
        snd (add_task_note (later env) task_id
               ("Status: " ++ new_status ++ " - " ++ notes) g1)
      else g1 in
    (matched task_id g, g2).

(** [max(0, min(100, progress_percent))] *)
Definition clamp (progress_percent : Z) : Z :=
  Z.max 0 (Z.min 100 progress_percent).

Definition update_task_progress (env : Env) (task_id : string)
           (progress_percent : Z) (g : TaskGraph) : bool * TaskGraph :=
  if raises env 0 then (false, g)
  else
    (matched task_id g,
     set_tasks task_id
       (fun t =>
          {| TaskID := TaskID t; TaskName := TaskName t;
             Description := Description t; Status := Status t;
             Priority := Priority t; AssignedDate := AssignedDate t;
             DueDate := DueDate t; ExposureAmount := ExposureAmount t;
             ProgressPercent := clamp progress_percent;
             Notes := Notes t;
             CreatedDate := CreatedDate t; CompletedDate := CompletedDate t;
             LastUpdated := Some (now env) |})
       g).

Definition touch (env : Env) (t : AuditTask) : AuditTask :=
  {| TaskID := TaskID t; TaskName := TaskName t;
     Description := Description t; Status := Status t;
     Priority := Priority t; AssignedDate := AssignedDate t;
     DueDate := DueDate t; ExposureAmount := ExposureAmount t;
     ProgressPercent := ProgressPercent t;
     Notes := Notes t;
     CreatedDate := CreatedDate t; CompletedDate := CompletedDate t;
     LastUpdated := Some (now env) |}.

(** [reassign_task]: with a task, an assignment to it and the new auditor,
    the old assignments are deleted and the new auditor is assigned (once for
    each row). *)
Definition reassign_task (env : Env) (task_id new_auditor_id reason : string)
           (g : TaskGraph) : bool * TaskGraph :=
  if raises env 0 then (false, g)
  else
    let old := filter (fun a => String.eqb (snd a) task_id) (assigned_to g) in
    let rows :=
      List.length (filter (is_task task_id) (tasks g)) * List.length old *
      count_eq new_auditor_id (auditor_ids g) in
    match rows with
    | O => (false, g)
    | S _ =>
        (true,
         {| tasks := map (fun t => if is_task task_id t then touch env t else t)
                         (tasks g);
            taxpayer_tins := taxpayer_tins g;
            auditor_ids := auditor_ids g;
            risk_ids := risk_ids g;
            assigned_to :=
              (filter (fun a => negb (String.eqb (snd a) task_id)) (assigned_to g)
               ++ repeat (new_auditor_id, task_id) rows)%list;
            targets := targets g;
            linked_to := linked_to g |})
    end.

Definition link_risk_to_task (env : Env) (task_id risk_id : string)
           (g : TaskGraph) : bool * TaskGraph :=
  if raises env 0 then (false, g)
  else
    let rows :=
      List.length (filter (is_task task_id) (tasks g)) *
      count_eq risk_id (risk_ids g) in
    match rows with
    | O => (false, g)
    | S _ =>
        (true,
         {| tasks := map (fun t => if is_task task_id t then touch env t else t)
                         (tasks g);
            taxpayer_tins := taxpayer_tins g;
            auditor_ids := auditor_ids g;
            risk_ids := risk_ids g;
            assigned_to := assigned_to g;
            targets := targets g;
            linked_to := (linked_to g ++ repeat (task_id, risk_id) rows)%list |})
    end.

Definition complete_task (env : Env) (task_id completion_notes : string)
           (g : TaskGraph) : bool * TaskGraph :=
  if raises env 0 then (false, g)
  else
    let note :=
      "[COMPLETED " ++ strftime env (now env) ++ "] " ++ completion_notes in
    (matched task_id g,
     set_tasks task_id
       (fun t =>
          {| TaskID := TaskID t; TaskName := TaskName t;
             Description := Description t; Status := "Completed";
             Priority := Priority t; AssignedDate := AssignedDate t;
             DueDate := DueDate t; ExposureAmount := ExposureAmount t;
             ProgressPercent := 100%Z;
             Notes := append_note (Notes t) note;
             CreatedDate := CreatedDate t; CompletedDate := Some (now env);
             LastUpdated := Some (now env) |})
       g).

(** The write operations, as one step of the task graph. *)
Inductive Operation : Type :=
| Create (d : TaskData)
| UpdateStatus (task_id new_status notes : string)
| UpdateProgress (task_id : string) (progress_percent : Z)
| Reassign (task_id new_auditor_id reason : string)
| AddNote (task_id note : string)
| LinkRisk (task_id risk_id : string)
| Complete (task_id completion_notes : string).

Definition step (env : Env) (op : Operation) (g : TaskGraph) : bool * TaskGraph :=
  match op with
  | Create d => create_audit_task env d g
  | UpdateStatus i s n => update_task_status env i s n g
  | UpdateProgress i p => update_task_progress env i p g
  | Reassign i a r => reassign_task env i a r g
  | AddNote i n => add_task_note env i n g
  | LinkRisk i r => link_risk_to_task env i r g
  | Complete i n => complete_task env i n g
  end.

(** A sequence of operations, each with its surroundings. *)
Fixpoint run (ops : list (Env * Operation)) (g : TaskGraph) : TaskGraph :=
  match ops with
  | [] => g
  | (env, op) :: ops' => run ops' (snd (step env op g))
  end.

End AuditTasks.

(* ===================================================================== *)
(** ** Vocabulary of the properties                                       *)
(* ===================================================================== *)

Module IntentSpec.
Import Text Regex Tatis360.

(** [s] begins with a character that satisfies [p]. *)
Definition starts_with (p : ascii -> bool) (s : string) : bool :=
  match s with String c _ => p c | EmptyString => false end.

(** The text captured by [keyword (\w+)] when it matches at the start of [s]:
    the longest run of word characters after ["keyword "]. *)
Definition word_after (kw s : string) : option string :=
  match strip_prefix (kw ++ " ") s with
  | Some rest =>
      if starts_with is_word rest then Some (take_while is_word rest) else None
  | None => None
  end.

(** The eight tags [detect_intent] can return (spec names: search-by-identifier,
    search-by-name, risk-analysis, find-related, evidence-pathway,
    sector-analysis, high-impact-cases, help). *)
Definition supported_intents : list string :=
  [ "search_tin"; "search_name"; "risk_analysis"; "related"; "pathway";
    "sector_analysis"; "high_impact"; "help" ].

(** Neither a pattern nor a keyword of the definition is found in [s]. *)
Definition no_hit (s : string) (d : string * IntentConfig) : bool :=
  negb (pattern_hit (snd d) s) && negb (keyword_hit (snd d) s).

(** Some pattern of some definition is found in [s]. *)
Definition any_pattern_matches (s : string) : bool :=
  existsb (fun d => pattern_hit (snd d) s) intents.

(** A result of the pattern stage carries the key ['extracted_value']. *)
Definition pattern_stage (r : string * Params) : bool :=
  match snd r with Some _ => true | None => false end.

End IntentSpec.

Module DispatchSpec.
Import Text Regex Tatis360.

(** A store whose every call raises, and one that never has a row. *)
Definition store_down : Graph :=
  {| run_tin := fun _ _ => Raised;
     run_name := fun _ _ => Raised;
     run_related := fun _ _ => Raised;
     run_pathway := fun _ _ _ => Raised;
     run_high_of_risk := fun _ _ _ => Raised;
     run_high := fun _ _ => Raised;
     run_sector := fun _ _ => Raised |}.

Definition store_empty : Graph :=
  {| run_tin := fun _ _ => Rows [];
     run_name := fun _ _ => Rows [];
     run_related := fun _ _ => Rows [];
     run_pathway := fun _ _ _ => Rows [];
     run_high_of_risk := fun _ _ _ => Rows [];
     run_high := fun _ _ => Rows [];
     run_sector := fun _ _ => Rows [] |}.

(** The same store with every raising call answered by zero rows. *)
Definition calm {A : Type} (o : outcome A) : outcome A :=
  match o with Raised => Rows [] | Rows l => Rows l end.

Definition zero_rows_on_error (g : Graph) : Graph :=
  {| run_tin := fun h t => calm (run_tin g h t);
     run_name := fun h n => calm (run_name g h n);
     run_related := fun h t => calm (run_related g h t);
     run_pathway := fun h t r => calm (run_pathway g h t r);
     run_high_of_risk := fun h r m => calm (run_high_of_risk g h r m);
     run_high := fun h m => calm (run_high g h m);
     run_sector := fun h s => calm (run_sector g h s) |}.

(** The parameter is missing: the key is absent, or its value is [None] or
    the empty string. *)
Definition missing (params : Params) : bool :=
  match truthy_opt (get_value params) with
  | Some _ => false
  | None => true
  end.

(** The branches of [generate_response] that read ['extracted_value'], and
    those of them that test it before using it. *)
Definition parameter_intents : list string :=
  [ "search_tin"; "search_name"; "related"; "pathway"; "sector_analysis" ].

Definition validated_intents : list string :=
  [ "search_tin"; "related"; "pathway" ].

(** The order of the four recommendation tiers. *)
Definition tier_rank (action : string) : nat :=
  if String.eqb action "CRITICAL - Immediate Audit" then 3
  else if String.eqb action "HIGH PRIORITY - Schedule Audit" then 2
  else if String.eqb action "MEDIUM - Review Risk Profile" then 1
  else 0.

(** A store that knows one taxpayer, flagged by five risks, whatever the
    identifier asked for. *)
Definition sample_risk (id : string) (e : Z) : option RiskEntry :=
  Some {| re_riskId := Some id; re_riskName := None; re_severity := Some "High";
          re_exposureAmount := Some e; re_detectedDate := None |}.

Definition sample_taxpayer : TinResult :=
  {| taxpayer := {| ti_tin := Some "1000"; ti_name := Some "acme";
                    ti_region := None; ti_sector := None; ti_status := None;
                    ti_createdDate := None |};
     risks := [ sample_risk "R1" 5; sample_risk "R2" 7; sample_risk "R3" 1;
                sample_risk "R4" 2; sample_risk "R5" 3 ];
     itReturns := [];
     efrisReturns := [] |}.

Definition store_sample : Graph :=
  {| run_tin := fun _ _ => Rows [sample_taxpayer];
     run_name := fun _ _ => Rows [];
     run_related := fun _ _ => Rows [];
     run_pathway := fun _ _ _ => Rows [];
     run_high_of_risk := fun _ _ _ => Rows [];
     run_high := fun _ _ => Rows [];
     run_sector := fun _ _ => Rows [] |}.

End DispatchSpec.

Module CypherSpec.
Import Text Tatis360 Cypher.
Local Open Scope nat_scope.

(** Ranked descending by [key]: every row is followed only by rows whose key
    is not larger. *)
Definition descending {A : Type} (key : A -> Z) (l : list A) : Prop :=
  StronglySorted (fun a b => (key b <= key a)%Z) l.

(** [flags db t rf]: the taxpayer node [t] is flagged by the risk node [rf];
    [flags_tin db tin rf]: so is some taxpayer whose TIN is [tin];
    [shared_risk_flags db tin t2]: the risk flags that flag both a taxpayer
    whose TIN is [tin] and the taxpayer node [t2]. *)
Definition flags (db : GraphDB) (t rf : nat) : bool :=
  existsb (fun m => (f_t m =? t) && (f_rf m =? rf)) (flaggings db).

Definition flags_tin (db : GraphDB) (tin : string) (rf : nat) : bool :=
  existsb (fun m => tin_is tin (f_taxpayer m) && (f_rf m =? rf)) (flaggings db).

Definition shared_risk_flags (db : GraphDB) (tin : string) (t2 : nat) : list nat :=
  filter (fun rf => flags_tin db tin rf && flags db t2 rf)
         (seq 0 (List.length (risk_flags db))).

(** A graph with four taxpayers and four risk flags: the taxpayer 1000 is
    flagged by the first three risks, 2000 by all four, 3000 by the first,
    4000 by none. *)
Definition sample_tp (tin name : string) : Taxpayer :=
  {| TIN := Some tin; TaxpayerName := Some name; Region := Some "Kampala";
     Sector := Some "Manufacturing"; ComplianceStatus := Some "Active" |}.

Definition sample_rf (id : string) : RiskFlag :=
  {| RiskID := Some id; RiskName := Some "Variance"; Severity := Some "High" |}.

Definition sample_fb (t rf : nat) (e : Z) : FlaggedBy :=
  {| fb_taxpayer := t; fb_risk := rf; ExposureAmount := Some e;
     DetectedDate := None |}.

Definition sample_db : GraphDB :=
  {| taxpayers := [ sample_tp "1000" "Acme Ltd"; sample_tp "2000" "Bolt Ltd";
                    sample_tp "3000" "Crane Company"; sample_tp "4000" "Dune" ];
     risk_flags := [ sample_rf "R01"; sample_rf "R02"; sample_rf "R03";
                     sample_rf "R04" ];
     flagged_by :=
       [ sample_fb 0 0 2300000000; sample_fb 0 1 500; sample_fb 0 2 700;
         sample_fb 1 0 1200000000; sample_fb 1 1 900; sample_fb 1 2 100;
         sample_fb 1 3 4000000000; sample_fb 2 0 30 ] |}.

(** A store that answers every call. *)
Definition never_fails (h : list Query) (q : Query) : bool := false.

End CypherSpec.

Module AuditTaskSpec.
Import Text AuditTasks.

(** The invariant of the data model: progress percent lies in [0, 100]. *)
Definition progress_ok (g : TaskGraph) : Prop :=
  Forall (fun t => (0 <= ProgressPercent t <= 100)%Z) (tasks g).

(** A graph with one taxpayer, one auditor and one risk flag, and no task. *)
Definition base_graph : TaskGraph :=
  {| tasks := []; taxpayer_tins := ["1000"]; auditor_ids := ["A1"];
     risk_ids := ["R01"]; assigned_to := []; targets := []; linked_to := [] |}.

(** Surroundings in which no call raises. *)
Definition env_at (t : nat) (keeps_row : bool) : Env :=
  {| now := t; raises := fun _ => false; randomUUID := fun _ => "T0";
     strftime := fun _ => "2025-01-01 10:00";
     optional_keeps_row := keeps_row |}.

Definition sample_data : TaskData :=
  {| taxpayer_tin := "1000"; auditor_id := "A1"; task_name := "Verify returns";
     due_date := 1767225600000%Z; description := None; priority := Some "High";
     exposure := Some 2500000000%Z; notes := None; assigned_by := None;
     td_risk_ids := Some ["R01"] |}.

End AuditTaskSpec.

Module MoreSpec.
Import Text Regex Tatis360.

(** The pattern has a capturing group. *)
Fixpoint has_group (r : regex) : bool :=
  match r with
  | Str _ | Star _ | Plus _ => false
  | Cat r1 r2 | Alt r1 r2 => has_group r1 || has_group r2
  | Group _ => true
  end.


(** The intents for which [generate_response] has a branch of its own. *)
Definition dispatched_intents : list string :=
  [ "search_tin"; "search_name"; "related"; "pathway"; "high_impact";
    "sector_analysis" ].

(** A store whose lookup returns a taxpayer with one risk entry that has no
    values (the map built from an [OPTIONAL MATCH] that found nothing). *)
Definition null_risk : RiskEntry :=
  {| re_riskId := None; re_riskName := None; re_severity := None;
     re_exposureAmount := None; re_detectedDate := None |}.

Definition unflagged_taxpayer : TinResult :=
  {| taxpayer := {| ti_tin := Some "4000"; ti_name := Some "dune";
                    ti_region := None; ti_sector := None; ti_status := None;
                    ti_createdDate := None |};
     risks := [ Some null_risk ];
     itReturns := [];
     efrisReturns := [] |}.

Definition store_unflagged : Graph :=
  {| run_tin := fun _ _ => Rows [unflagged_taxpayer];
     run_name := fun _ _ => Rows [];
     run_related := fun _ _ => Rows [];
     run_pathway := fun _ _ _ => Rows [];
     run_high_of_risk := fun _ _ _ => Rows [];
     run_high := fun _ _ => Rows [];
     run_sector := fun _ _ => Rows [] |}.

End MoreSpec.

Module CypherMoreSpec.
Import Text Tatis360 Cypher.
Local Open Scope nat_scope.




(** No taxpayer with this TIN is flagged (it is unknown, or has no risk). *)
Definition unflagged (db : GraphDB) (tin : string) : bool :=
  forallb (fun m => negb (tin_is tin (f_taxpayer m))) (flaggings db).

End CypherMoreSpec.

Module AuditTaskMoreSpec.
Import Text AuditTasks.

(** The auditors assigned to the task [task_id]. *)
Definition assignees (task_id : string) (g : TaskGraph) : list string :=
  map fst (filter (fun a => String.eqb (snd a) task_id) (assigned_to g)).

(** The new notes begin with the old ones. *)
Definition notes_extend (old new : option string) : Prop :=
  match old, new with
  | None, _ => True
  | Some a, Some b => exists tail, b = a ++ tail
  | Some _, None => False
  end.

(** The task [t'] is the task [t] after some operations: same identifier,
    name and creation date, and notes that begin with those of [t]. *)
Definition kept (t t' : AuditTask) : Prop :=
  TaskID t' = TaskID t /\ TaskName t' = TaskName t /\
  CreatedDate t' = CreatedDate t /\ notes_extend (Notes t) (Notes t').

(** The task an operation addresses; [Create] addresses none. *)
Definition addressed (op : Operation) : option string :=
  match op with
  | Create _ => None
  | UpdateStatus i _ _ | UpdateProgress i _ | Reassign i _ _ | AddNote i _
  | LinkRisk i _ | Complete i _ => Some i
  end.

(** Some risk flag of the graph is named in the task data. *)
Definition links_a_risk (d : TaskData) (g : TaskGraph) : bool :=
  existsb (fun r => existsb (String.eqb r) (get_or (td_risk_ids d) []))
          (risk_ids g).

End AuditTaskMoreSpec.

(* ===================================================================== *)
(** ** tatis360.py: the Cypher text of the identifier lookup             *)
(* ===================================================================== *)

(** The query of [search_taxpayer_by_tin] over the graph of [Cypher],
    extended with the creation dates of the taxpayers and with their income
    tax and EFRIS returns.  An [OPTIONAL MATCH] that finds nothing leaves one
    row with [null] for its variables; a map built from such a row has [null]
    values and is collected like any other map. *)

Module CypherTin.
Import Text Tatis360 Cypher.
Local Open Scope nat_scope.

Record Filings : Type := {
  created_date : nat -> option string;        (* t.CreatedDate, by taxpayer node *)
  filed : list (nat * ITReturnEntry);         (* (t)-[:FILED]->(ir:ITReturn) *)
  reported : list (nat * EfrisReturnEntry)    (* (t)-[:REPORTED]->(er:EFRISReturn) *)
}.

(** The rows of an [OPTIONAL MATCH]: its matches, or one row without. *)
Definition optional {A : Type} (matches : list A) : list (option A) :=
  match matches with
  | [] => [None]
  | _ => map Some matches
  end.

Record TinRow : Type := {
  tr_info : TaxpayerInfo;
  tr_flagged : option Flagging;
  tr_it : option ITReturnEntry;
  tr_efris : option EfrisReturnEntry
}.

Definition info_of (fl : Filings) (i : nat) (t : Taxpayer) : TaxpayerInfo :=
  {| ti_tin := TIN t; ti_name := TaxpayerName t; ti_region := Region t;
     ti_sector := Sector t; ti_status := ComplianceStatus t;
     ti_createdDate := created_date fl i |}.

Definition returns_of {A : Type} (i : nat) (l : list (nat * A)) : list A :=
  map snd (filter (fun x => fst x =? i) l).

Definition tin_rows (db : GraphDB) (fl : Filings) (tin : string) : list TinRow :=
  flat_map
    (fun it : nat * Taxpayer =>
       let (i, t) := it in
       if tin_is tin t then
         flat_map
           (fun f =>
              flat_map
                (fun ir =>
                   map (fun er => {| tr_info := info_of fl i t; tr_flagged := f;
                                     tr_it := ir; tr_efris := er |})
                       (optional (returns_of i (reported fl))))
                (optional (returns_of i (filed fl))))
           (optional (filter (fun m => f_t m =? i) (flaggings db)))
       else [])
    (combine (seq 0 (List.length (taxpayers db))) (taxpayers db)).

(** The three maps under [collect(DISTINCT ...)]. *)
Definition risk_map (f : option Flagging) : RiskEntry :=
  match f with
  | Some m =>
      {| re_riskId := RiskID (f_risk m); re_riskName := RiskName (f_risk m);
         re_severity := Severity (f_risk m);
         re_exposureAmount := ExposureAmount (f_edge m);
         re_detectedDate := DetectedDate (f_edge m) |}
  | None =>
      {| re_riskId := None; re_riskName := None; re_severity := None;
         re_exposureAmount := None; re_detectedDate := None |}
  end.

Definition it_map (ir : option ITReturnEntry) : ITReturnEntry :=
  match ir with
  | Some x => x
  | None => {| it_returnId := None; it_year := None; it_filedDate := None;
               it_totalIncome := None |}
  end.

Definition efris_map (er : option EfrisReturnEntry) : EfrisReturnEntry :=
  match er with
  | Some x => x
  | None => {| ef_returnId := None; ef_period := None; ef_totalSales := None;
               ef_vat := None |}
  end.

Definition info_eq_dec (a b : TaxpayerInfo) : {a = b} + {a <> b}.
Proof. repeat decide equality. Defined.

Definition risk_entry_eq_dec (a b : RiskEntry) : {a = b} + {a <> b}.
Proof. repeat decide equality. Defined.

Definition it_entry_eq_dec (a b : ITReturnEntry) : {a = b} + {a <> b}.
Proof. repeat decide equality. Defined.

Definition efris_entry_eq_dec (a b : EfrisReturnEntry) : {a = b} + {a <> b}.
Proof. repeat decide equality. Defined.

Definition same_info (a b : TaxpayerInfo) : bool :=
  if info_eq_dec a b then true else false.

(** One result for each group of rows with the same taxpayer properties.  The
    collected maps are dicts with five (four) keys in Python, hence truthy. *)
Definition tin_group (rows : list TinRow) (k : TaxpayerInfo) : TinResult :=
  let members := filter (fun r => same_info (tr_info r) k) rows in
  {| taxpayer := k;
     risks :=
       map Some (nodup risk_entry_eq_dec (map (fun r => risk_map (tr_flagged r)) members));
     itReturns :=
       map Some (nodup it_entry_eq_dec (map (fun r => it_map (tr_it r)) members));
     efrisReturns :=
       map Some (nodup efris_entry_eq_dec (map (fun r => efris_map (tr_efris r)) members)) |}.

Definition query_tin (db : GraphDB) (fl : Filings) (tin : string) : list TinResult :=
  let rows := tin_rows db fl tin in
  map (tin_group rows) (nodup info_eq_dec (map tr_info rows)).

(** The handle [other] with its identifier lookup answered from the graph. *)
Definition neo4j_tin (db : GraphDB) (fl : Filings)
           (fails : list Query -> Query -> bool) (other : Graph) : Graph :=
  {| run_tin := fun h tin =>
       if fails h (QTaxpayerByTin tin) then Raised
       else Rows (query_tin db fl tin);
     run_name := run_name other;
     run_related := run_related other;
     run_pathway := run_pathway other;
     run_high_of_risk := run_high_of_risk other;
     run_high := run_high other;
     run_sector := run_sector other |}.

(** Some taxpayer node has this TIN. *)
Definition known (db : GraphDB) (tin : string) : bool :=
  existsb (tin_is tin) (taxpayers db).

(** No returns filed, no creation dates. *)
Definition no_filings : Filings :=
  {| created_date := fun _ => None; filed := []; reported := [] |}.

End CypherTin.

(* ===================================================================== *)
(** * Properties                                                          *)
(* ===================================================================== *)

(** ** Strings *)

Module TextFacts.
Import Text IntentSpec.

Lemma append_nil_r (s : string) : s ++ "" = s.
Proof. induction s as [|c s IH]; simpl; [reflexivity | now rewrite IH]. Qed.

Lemma append_assoc (a b c : string) : (a ++ b) ++ c = a ++ (b ++ c).
Proof. induction a as [|x a IH]; simpl; [reflexivity | now rewrite IH]. Qed.

Lemma strip_prefix_app (p r : string) : strip_prefix p (p ++ r) = Some r.
Proof.
  induction p as [|a p IH]; simpl; [reflexivity|].
  now rewrite Ascii.eqb_refl.
Qed.

Lemma strip_prefix_inv (p s r : string) :
  strip_prefix p s = Some r -> s = p ++ r.
Proof.
  revert s; induction p as [|a p IH]; simpl; intros s H.
  - now inversion H.
  - destruct s as [|b s]; [discriminate|].
    destruct (Ascii.eqb a b) eqn:E; [|discriminate].
    apply Ascii.eqb_eq in E; subst b. now rewrite (IH _ H).
Qed.

Lemma contains_unfold (sub s : string) :
  contains sub s =
  match strip_prefix sub s with
  | Some _ => true
  | None => match s with EmptyString => false | String _ s' => contains sub s' end
  end.
Proof. destruct s; reflexivity. Qed.

Lemma contains_app (sub pre post : string) :
  contains sub (pre ++ sub ++ post) = true.
Proof.
  induction pre as [|c pre IH].
  - simpl append. now rewrite contains_unfold, strip_prefix_app.
  - simpl append. rewrite contains_unfold.
    destruct (strip_prefix sub (String c (pre ++ sub ++ post))); [reflexivity|].
    exact IH.
Qed.

Lemma contains_inv (sub s : string) :
  contains sub s = true -> exists pre post, s = pre ++ sub ++ post.
Proof.
  induction s as [|c s IH]; simpl.
  - destruct (strip_prefix sub "") eqn:E; [|discriminate].
    intros _. exists "", s. simpl. now apply strip_prefix_inv.
  - destruct (strip_prefix sub (String c s)) eqn:E.
    + intros _. exists "", s0. simpl. now apply strip_prefix_inv.
    + intros H. destruct (IH H) as (pre & post & ->).
      now exists (String c pre), post.
Qed.

Lemma take_drop_while (p : ascii -> bool) (s : string) :
  s = take_while p s ++ drop_while p s.
Proof.
  induction s as [|c s IH]; simpl; [reflexivity|].
  destruct (p c); simpl; [now rewrite <- IH | reflexivity].
Qed.

Lemma take_while_all (p : ascii -> bool) (s : string) :
  all_chars p (take_while p s) = true.
Proof.
  induction s as [|c s IH]; simpl; [reflexivity|].
  destruct (p c) eqn:E; simpl; [now rewrite E | reflexivity].
Qed.

Lemma drop_while_stops (p : ascii -> bool) (s : string) :
  starts_with p (drop_while p s) = false.
Proof.
  induction s as [|c s IH]; simpl; [reflexivity|].
  destruct (p c) eqn:E; simpl; [exact IH | exact E].
Qed.

Lemma drop_while_length (p : ascii -> bool) (s : string) :
  String.length (drop_while p s) <= String.length s.
Proof.
  induction s as [|c s IH]; simpl; [lia|].
  destruct (p c); simpl; lia.
Qed.

Lemma take_consumed (p : ascii -> bool) (s : string) :
  take (String.length s - String.length (drop_while p s)) s = take_while p s.
Proof.
  induction s as [|c s IH]; [reflexivity|].
  cbn [take_while drop_while]. destruct (p c) eqn:E; cbn [String.length].
  - pose proof (drop_while_length p s) as L.
    replace (S (String.length s) - String.length (drop_while p s))
      with (S (String.length s - String.length (drop_while p s))) by lia.
    cbn [take]. now rewrite IH.
  - now rewrite Nat.sub_diag.
Qed.

End TextFacts.

(** ** The matcher on the pattern [keyword (\w+)] *)

Module RegexFacts.
Import Text Regex Tatis360 IntentSpec TextFacts.

(** With a continuation that accepts everything, a greedy repetition keeps
    every character of the class that it can read. *)
Lemma star_greedy {R : Type} (c : cclass) (f : string -> R) (s : string) :
  star c s (fun s' => Some (f s')) = Some (f (drop_while (in_class c) s)).
Proof.
  induction s as [|x s IH]; simpl; [reflexivity|].
  destruct (in_class c x); [now rewrite IH | reflexivity].
Qed.

Lemma match_here_kw_word (kw s : string) :
  match_here (kw_word kw) s = option_map Some (word_after kw s).
Proof.
  unfold match_here, kw_word, word_after. cbn [rmatch].
  destruct (strip_prefix (kw ++ " ") s) as [rest|]; [|reflexivity].
  destruct rest as [|x rest]; [reflexivity|].
  cbn [plus starts_with]. destruct (is_word x) eqn:E; cbn [in_class]; rewrite E;
    [|reflexivity].
  rewrite (star_greedy WordChar
             (fun s' => Some (take (String.length (String x rest) - String.length s')
                                   (String x rest)))).
  change (in_class WordChar) with is_word.
  assert (D : drop_while is_word rest = drop_while is_word (String x rest))
    by (cbn [drop_while]; now rewrite E).
  rewrite D, take_consumed. reflexivity.
Qed.

(** A successful [re.search] of [keyword (\w+)] captured a complete word that
    follows an occurrence of ["keyword "]. *)
Lemma search_kw_word_sound (kw s : string) (g : option string) :
  search (kw_word kw) s = Some g ->
  exists pre w post,
    g = Some w /\ s = pre ++ (kw ++ " ") ++ w ++ post /\
    truthy w = true /\ all_chars is_word w = true /\
    starts_with is_word post = false.
Proof.
  induction s as [|c s IH]; cbn [search]; rewrite match_here_kw_word.
  - unfold word_after. destruct (strip_prefix (kw ++ " ") "") as [rest|] eqn:E;
      [|discriminate].
    apply strip_prefix_inv in E. destruct kw; discriminate.
  - destruct (word_after kw (String c s)) as [w|] eqn:E; simpl.
    + intros H; inversion H; subst g; clear H.
      unfold word_after in E.
      destruct (strip_prefix (kw ++ " ") (String c s)) as [rest|] eqn:P;
        [|discriminate].
      destruct (starts_with is_word rest) eqn:W; [|discriminate].
      inversion E; subst w; clear E.
      exists "", (take_while is_word rest), (drop_while is_word rest).
      repeat split.
      * simpl. rewrite (strip_prefix_inv _ _ _ P). f_equal.
        apply take_drop_while.
      * destruct rest as [|x rest]; [discriminate|]. simpl in *. now rewrite W.
      * apply take_while_all.
      * apply drop_while_stops.
    + intros H. destruct (IH H) as (pre & w & post & -> & -> & Hw).
      now exists (String c pre), w, post.
Qed.


End RegexFacts.

(** ** Intent detection *)

Module IntentFacts.
Import Text Regex Tatis360 IntentSpec TextFacts RegexFacts.

Lemma scan_skip (before after : list (string * IntentConfig)) (s : string) :
  forallb (no_hit s) before = true ->
  scan (before ++ after) s = scan after s.
Proof.
  induction before as [|[n c] before IH]; simpl; [reflexivity|].
  unfold no_hit at 1, pattern_hit; simpl.
  destruct (first_pattern (patterns c) s); simpl; [discriminate|].
  destruct (keyword_hit c s); simpl; [discriminate|].
  exact IH.
Qed.

Lemma scan_tag (defs : list (string * IntentConfig)) (s : string) :
  In (fst (scan defs s)) (map fst defs ++ ["help"]).
Proof.
  induction defs as [|[n c] defs IH]; simpl; [now left|].
  destruct (first_pattern (patterns c) s); [now left|].
  destruct (keyword_hit c s); [now left | now right].
Qed.

Lemma scan_help (defs : list (string * IntentConfig)) (s : string) :
  forallb (no_hit s) defs = true -> scan defs s = ("help", None).
Proof.
  intros H. rewrite <- (app_nil_r defs). now rewrite scan_skip.
Qed.

Lemma scan_help_inv (defs : list (string * IntentConfig)) (s : string) :
  ~ In "help" (map fst defs) ->
  fst (scan defs s) = "help" -> forallb (no_hit s) defs = true.
Proof.
  induction defs as [|[n c] defs IH]; simpl; [reflexivity|].
  intros Hn. unfold no_hit at 1, pattern_hit; simpl.
  destruct (first_pattern (patterns c) s); simpl; [intros E; tauto|].
  destruct (keyword_hit c s); simpl; [intros E; tauto|].
  apply IH. tauto.
Qed.

(** C1, as the claim states it, fails: on ["sector mining tin"] the pattern
    [sector (\w+)] of the sector definition matches, and yet the result is the
    keyword-stage result of the earlier identifier definition, whose keyword
    ["tin"] occurs in the text. *)
Lemma C1_keyword_preempts_later_pattern :
  any_pattern_matches (normalize "sector mining tin") = true /\
  search (kw_word "sector") (normalize "sector mining tin") = Some (Some "mining") /\
  detect_intent "sector mining tin" = ("search_tin", None) /\
  pattern_stage (detect_intent "sector mining tin") = false.
Proof. vm_compute. repeat split. Qed.

(** C1 (amended): the definitions are visited in priority order and the
    keyword set of a definition is consulted right after its own patterns.
    When no pattern and no keyword of the definitions before [name] is found in
    the normalized text, a matching pattern of [name] gives the pattern-stage
    result of [name], and otherwise a keyword of [name] gives its keyword-stage
    result, whatever the later definitions would match. *)
Theorem C1_first_definition_with_a_hit_decides :
  forall (text : string) (before after : list (string * IntentConfig))
         (name : string) (config : IntentConfig),
    intents = (before ++ (name, config) :: after)%list ->
    forallb (no_hit (normalize text)) before = true ->
    match first_pattern (patterns config) (normalize text) with
    | Some g => detect_intent text = (name, Some g)
    | None =>
        keyword_hit config (normalize text) = true ->
        detect_intent text = (name, None)
    end.
Proof.
  intros text before after name config Hsplit Hbefore.
  unfold detect_intent. rewrite Hsplit, (scan_skip _ _ _ Hbefore).
  cbn [scan].
  destruct (first_pattern (patterns config) (normalize text)); [reflexivity|].
  now intros ->.
Qed.

Lemma C1_first_definition_with_a_hit_decides_witness :
  detect_intent "industry mining" = ("sector_analysis", Some (Some "mining")).
Proof.
  exact (C1_first_definition_with_a_hit_decides "industry mining"
           (firstn 5 intents) (skipn 6 intents) "sector_analysis"
           {| patterns := [ kw_word "sector"; kw_word "industry" ];
              keywords := [ "sector"; "industry"; "agriculture";
                            "manufacturing"; "services" ] |}
           eq_refl eq_refl).
Defined.

(** C8: [detect_intent] is total and its tag is one of the eight supported
    intents; the tag is ["help"], with empty parameters, whenever no pattern
    and no keyword of any definition is found in the normalized text (and only
    then). *)
Theorem C8_detect_intent_returns_supported_tag :
  forall text : string,
    In (fst (detect_intent text)) supported_intents /\
    (forallb (no_hit (normalize text)) intents = true <->
     detect_intent text = ("help", None)) /\
    (fst (detect_intent text) = "help" -> detect_intent text = ("help", None)).
Proof.
  intros text. unfold detect_intent.
  assert (Hn : ~ In "help" (map fst intents)).
  { simpl. intros H. repeat destruct H as [H|H]; try discriminate H; exact H. }
  split; [exact (scan_tag intents (normalize text))|].
  split; [split|].
  - apply scan_help.
  - intros E. apply scan_help_inv; [exact Hn | now rewrite E].
  - intros E. apply scan_help. now apply scan_help_inv.
Qed.

Lemma C8_detect_intent_returns_supported_tag_witness :
  In (fst (detect_intent "good morning")) supported_intents /\
  detect_intent "good morning" = ("help", None).
Proof.
  destruct (C8_detect_intent_returns_supported_tag "good morning")
    as (Htag & Hhelp & _).
  split; [exact Htag | apply Hhelp; reflexivity].
Defined.



End IntentFacts.

(** ** Dispatch *)

Module DispatchFacts.
Import Text Regex Tatis360 DispatchSpec.

(** C2, as the claim states it, fails for the name search: with the parameter
    absent (as [detect_intent] returns it for the text ["company"]) the
    dispatch queries the store with the default name [''] and answers with a
    "nothing found" text, not with a prompt. *)
Lemma C2_name_search_queries_without_parameter :
  detect_intent "company" = ("search_name", None) /\
  In "search_name" parameter_intents /\ missing None = true /\
  generate_response store_empty "search_name" None "company" [] =
    (Ok (NoneByName (Some ""), None), [QTaxpayerByName (Some "")]) /\
  kind_of (NoneByName (Some "")) <> KPrompt.
Proof.
  repeat split; try reflexivity; try discriminate.
  simpl. tauto.
Qed.

(** C2 (amended): for the identifier search, the related search and the
    evidence pathway, a missing parameter (absent, [None] or empty) gives a
    prompt text with an empty payload and no store call; the name search and
    the sector analysis put a default ([''], ['Manufacturing']) in place of an
    absent parameter and make their one store call with it. *)
Theorem C2_missing_parameter_prompts_without_store_access :
  forall (graph : Graph) (intent : string) (params : Params)
         (user_input : string) (h : list Query),
    (In intent validated_intents -> missing params = true ->
     exists msg,
       generate_response graph intent params user_input h = (Ok (msg, None), h) /\
       kind_of msg = KPrompt) /\
    snd (generate_response graph "search_name" None user_input h) =
      (h ++ [QTaxpayerByName (Some "")])%list /\
    snd (generate_response graph "sector_analysis" None user_input h) =
      (h ++ [QSectorProfile (Some "Manufacturing")])%list.
Proof.
  intros graph intent params user_input h. split; [|split].
  - intros Hin Hmiss. unfold missing in Hmiss.
    destruct (truthy_opt (get_value params)) eqn:E; [discriminate|].
    simpl in Hin.
    destruct Hin as [<- | [<- | [<- | []]]]; unfold generate_response; simpl;
      rewrite E; eexists; split; reflexivity.
  - unfold generate_response, search_taxpayer_by_name, try_except, bind, call, ret.
    simpl. destruct (run_name graph h (Some "")) as [|[|r rows]]; reflexivity.
  - unfold generate_response, get_sector_risk_profile, try_except, bind, call, ret.
    simpl. destruct (run_sector graph h (Some "Manufacturing")) as [|[|r rows]];
      reflexivity.
Qed.

Lemma C2_missing_parameter_prompts_without_store_access_witness :
  In "search_tin" validated_intents /\ missing (Some (Some "")) = true /\
  exists msg,
    generate_response store_empty "search_tin" (Some (Some "")) "tin" [] =
      (Ok (msg, None), []) /\
    kind_of msg = KPrompt.
Proof.
  split; [now left | split; [reflexivity|]].
  apply (C2_missing_parameter_prompts_without_store_access
           store_empty "search_tin" (Some (Some "")) "tin" []).
  - now left.
  - reflexivity.
Defined.

(** Unfold the query functions down to the store call. *)
Ltac run_wrapper :=
  unfold search_taxpayer_by_tin, search_taxpayer_by_name, find_related_taxpayers,
    get_risk_pathway, find_high_impact_cases, get_sector_risk_profile,
    try_except, bind, call, ret, raise, lift; cbv beta.

Lemma recommended_action_monotone (m n : nat) :
  m <= n -> tier_rank (recommended_action m) <= tier_rank (recommended_action n).
Proof.
  intros Hmn. unfold recommended_action.
  destruct (Nat.leb_spec 10 m), (Nat.leb_spec 10 n),
           (Nat.leb_spec 5 m), (Nat.leb_spec 5 n),
           (Nat.leb_spec 2 m), (Nat.leb_spec 2 n);
    try lia; cbv; lia.
Qed.

(** C3: a taxpayer found by the identifier dispatch is reported with the
    action chosen from the number [n] of entries of its risk list alone:
    critical for [n >= 10], high for [5 <= n <= 9], medium for [2 <= n <= 4],
    low for [n <= 1]; the tier never decreases when [n] grows. *)
Theorem C3_recommended_action_thresholds :
  forall (graph : Graph) (params : Params) (user_input : string)
         (h h' : list Query) (p : Profile) (payload : option Payload),
    generate_response graph "search_tin" params user_input h =
      (Ok (FoundTaxpayer p, payload), h') ->
    (exists r,
       payload = Some (PTaxpayer r) /\
       pf_risk_count p = List.length (truthy_entries (risks r))) /\
    pf_action p = recommended_action (pf_risk_count p) /\
    (10 <= pf_risk_count p -> pf_action p = "CRITICAL - Immediate Audit") /\
    (5 <= pf_risk_count p <= 9 -> pf_action p = "HIGH PRIORITY - Schedule Audit") /\
    (2 <= pf_risk_count p <= 4 -> pf_action p = "MEDIUM - Review Risk Profile") /\
    (pf_risk_count p <= 1 -> pf_action p = "LOW - Routine Monitoring") /\
    (forall m n, m <= n ->
       tier_rank (recommended_action m) <= tier_rank (recommended_action n)).
Proof.
  intros graph params user_input h h' p payload.
  unfold generate_response. simpl.
  destruct (truthy_opt (get_value params)) as [tin|]; [|discriminate].
  run_wrapper.
  destruct (run_tin graph h tin) as [|[|r rows]]; simpl; try discriminate.
  destruct (sum_exposure (truthy_entries (risks r)) 0) as [e|x]; [|discriminate].
  intros H. inversion H; subst; clear H. cbn [pf_risk_count pf_action].
  split; [now exists r|]. split; [reflexivity|].
  unfold recommended_action.
  repeat split; intros;
    try apply recommended_action_monotone; try assumption;
    destruct (Nat.leb_spec 10 (List.length (truthy_entries (risks r))));
    destruct (Nat.leb_spec 5 (List.length (truthy_entries (risks r))));
    destruct (Nat.leb_spec 2 (List.length (truthy_entries (risks r))));
    try reflexivity; lia.
Qed.

Lemma C3_recommended_action_thresholds_witness :
  exists p,
    generate_response store_sample "search_tin" (Some (Some "1000")) "tin 1000" [] =
      (Ok (FoundTaxpayer p, Some (PTaxpayer sample_taxpayer)),
       [QTaxpayerByTin "1000"]) /\
    pf_risk_count p = 5 /\
    pf_action p = "HIGH PRIORITY - Schedule Audit".
Proof.
  eexists. split; [reflexivity|]. split; [reflexivity|].
  refine (proj1 (proj2 (proj2 (proj2
    (C3_recommended_action_thresholds store_sample (Some (Some "1000"))
       "tin 1000" [] _ _ _ eq_refl)))) _).
  cbv. lia.
Defined.


Lemma tin_lookup_calm (g : Graph) (tin : string) (h : list Query) :
  search_taxpayer_by_tin (zero_rows_on_error g) tin h =
  search_taxpayer_by_tin g tin h.
Proof. run_wrapper. simpl. destruct (run_tin g h tin); reflexivity. Qed.

Lemma name_search_calm (g : Graph) (name : option string) (h : list Query) :
  search_taxpayer_by_name (zero_rows_on_error g) name h =
  search_taxpayer_by_name g name h.
Proof. run_wrapper. simpl. destruct (run_name g h name); reflexivity. Qed.

Lemma related_calm (g : Graph) (tin : string) (h : list Query) :
  find_related_taxpayers (zero_rows_on_error g) tin h =
  find_related_taxpayers g tin h.
Proof. run_wrapper. simpl. destruct (run_related g h tin); reflexivity. Qed.

Lemma pathway_calm (g : Graph) (tin : string) (r : option string) (h : list Query) :
  get_risk_pathway (zero_rows_on_error g) tin r h = get_risk_pathway g tin r h.
Proof. run_wrapper. simpl. destruct (run_pathway g h tin r); reflexivity. Qed.

Lemma high_impact_calm (g : Graph) (r : option string) (m : Z) (h : list Query) :
  find_high_impact_cases (zero_rows_on_error g) r m h =
  find_high_impact_cases g r m h.
Proof.
  run_wrapper. destruct r as [[|c r]|]; simpl.
  - destruct (run_high g h m); reflexivity.
  - destruct (run_high_of_risk g h (String c r) m); reflexivity.
  - destruct (run_high g h m); reflexivity.
Qed.

Lemma sector_calm (g : Graph) (s : option string) (h : list Query) :
  get_sector_risk_profile (zero_rows_on_error g) s h =
  get_sector_risk_profile g s h.
Proof. run_wrapper. simpl. destruct (run_sector g h s); reflexivity. Qed.

Lemma tin_lookup_returns (g : Graph) (tin : string) (h : list Query) :
  exists r, search_taxpayer_by_tin g tin h = (Ok r, (h ++ [QTaxpayerByTin tin])%list).
Proof.
  run_wrapper. destruct (run_tin g h tin); eexists; reflexivity.
Qed.

Lemma pathway_returns (g : Graph) (tin : string) (r : option string) (h : list Query) :
  exists p, get_risk_pathway g tin r h = (Ok p, (h ++ [QRiskPathway tin r])%list).
Proof.
  run_wrapper. destruct (run_pathway g h tin r); eexists; reflexivity.
Qed.

Lemma bind_ext {A B : Type} (c1 c2 : Comp A) (f1 f2 : A -> Comp B)
      (h : list Query) :
  (forall h0, c1 h0 = c2 h0) -> (forall a h0, f1 a h0 = f2 a h0) ->
  bind c1 f1 h = bind c2 f2 h.
Proof.
  intros Hc Hf. unfold bind. rewrite Hc.
  destruct (c2 h) as [[a|e] h1]; [apply Hf | reflexivity].
Qed.

Lemma dispatch_calm (g : Graph) (intent : string) (params : Params)
      (user_input : string) (h : list Query) :
  generate_response (zero_rows_on_error g) intent params user_input h =
  generate_response g intent params user_input h.
Proof.
  unfold generate_response.
  repeat match goal with
         | |- context [String.eqb intent ?s] => destruct (String.eqb intent s)
         end;
    try reflexivity;
    try (destruct (truthy_opt (get_value params)) as [tin|]; [|reflexivity]);
    apply bind_ext;
    auto using tin_lookup_calm, name_search_calm, related_calm,
      high_impact_calm, sector_calm.
  intros [r|] h1; [|reflexivity].
  destruct (risks r) as [|[risk|] rest]; try reflexivity.
  apply bind_ext; [apply pathway_calm | reflexivity].
Qed.

Lemma dispatch_no_store_error (g : Graph) (intent : string) (params : Params)
      (user_input : string) (h : list Query) :
  fst (generate_response g intent params user_input h) <> Raise StoreError.
Proof.
  unfold generate_response.
  repeat match goal with
         | |- context [String.eqb intent ?s] => destruct (String.eqb intent s)
         end;
    try (simpl; discriminate);
    try (destruct (truthy_opt (get_value params)) as [tin|];
         [|simpl; discriminate]).
  - unfold bind at 1. destruct (tin_lookup_returns g tin h) as (r & ->).
    destruct r as [r|]; [|simpl; discriminate].
    unfold bind, lift, ret.
    destruct (sum_exposure (truthy_entries (risks r)) 0) as [e|[|]] eqn:E;
      simpl; try discriminate.
    exfalso. clear -E. revert E. generalize 0%Z.
    induction (truthy_entries (risks r)) as [|x l IH]; simpl; intros z E;
      [discriminate|].
    destruct (re_exposureAmount x); [now apply IH in E | discriminate].
  - run_wrapper. simpl.
    destruct (run_name g h (get_value_or params "")) as [|[|r rows]];
      simpl; discriminate.
  - run_wrapper. destruct (run_related g h tin) as [|[|r rows]];
      simpl; discriminate.
  - unfold bind at 1. destruct (tin_lookup_returns g tin h) as (r & ->).
    destruct r as [r|]; [|simpl; discriminate].
    destruct (risks r) as [|[risk|] rest]; try (simpl; discriminate).
    unfold bind.
    destruct (pathway_returns g tin (re_riskId risk) (h ++ [QTaxpayerByTin tin]))
      as (p & ->).
    destruct p as [pw|]; [|simpl; discriminate].
    destruct (pw_exposureAmount pw); simpl; discriminate.
  - run_wrapper. simpl.
    destruct (run_high g h default_min_exposure) as [|[|r rows]];
      simpl; discriminate.
  - run_wrapper. simpl.
    destruct (run_sector g h (get_value_or params "Manufacturing"))
      as [|[|r rows]]; simpl; discriminate.
Qed.

(** C4, as the claim states it, fails: when the store raises, the identifier
    dispatch gives the very answer it gives for zero rows (the "not found"
    text with an empty payload), so the two cases are not distinct and no
    answer of the error kind exists. *)
Lemma C4_store_error_answers_as_not_found :
  generate_response store_down "search_tin" (Some (Some "1000")) "tin 1000" [] =
    (Ok (TaxpayerNotFound "1000", None), [QTaxpayerByTin "1000"]) /\
  generate_response store_down "search_tin" (Some (Some "1000")) "tin 1000" [] =
  generate_response store_empty "search_tin" (Some (Some "1000")) "tin 1000" [] /\
  kind_of (TaxpayerNotFound "1000") = KEmpty.
Proof. repeat split. Qed.

(** C4 (amended): a store error raised during dispatch is caught in the query
    function, which then returns what it returns for zero rows; the dispatch
    therefore never ends in a store error and answers exactly as it would if
    the failing calls had returned no rows. *)
Theorem C4_store_errors_are_caught_as_zero_rows :
  forall (graph : Graph) (intent : string) (params : Params)
         (user_input : string) (h : list Query),
    fst (generate_response graph intent params user_input h) <> Raise StoreError /\
    generate_response graph intent params user_input h =
    generate_response (zero_rows_on_error graph) intent params user_input h.
Proof.
  intros. split.
  - apply dispatch_no_store_error.
  - symmetry. apply dispatch_calm.
Qed.

End DispatchFacts.

(** ** The Cypher queries *)

Module CypherFacts.
Import Text Tatis360 Cypher CypherSpec.
Local Open Scope nat_scope.

Lemma limit_In {A : Type} (n : nat) (x : A) (l : list A) :
  In x (limit n l) -> In x l.
Proof.
  unfold limit. revert l. induction n as [|n IH]; intros [|y l]; simpl;
    try tauto.
  intros [-> | H]; [now left | right; now apply IH].
Qed.

Lemma limit_length {A : Type} (n : nat) (l : list A) :
  List.length (limit n l) <= n.
Proof. apply firstn_le_length. Qed.

Section Ordering.
Context {A : Type} (key : A -> Z).

Lemma insert_desc_In (x y : A) (l : list A) :
  In y (insert_desc key x l) <-> y = x \/ In y l.
Proof.
  induction l as [|z l IH]; simpl; [intuition|].
  destruct (key x <? key z)%Z; simpl; rewrite ?IH; intuition.
Qed.

Lemma order_by_desc_In (y : A) (l : list A) :
  In y (order_by_desc key l) <-> In y l.
Proof.
  induction l as [|x l IH]; simpl; [reflexivity|].
  rewrite insert_desc_In, IH. intuition.
Qed.


Lemma insert_desc_descending (x : A) (l : list A) :
  descending key l -> descending key (insert_desc key x l).
Proof.
  unfold descending. induction l as [|z l IH]; intros Hl; simpl.
  - constructor; constructor.
  - inversion Hl as [|? ? Hs Hall]; subst.
    destruct (Z.ltb_spec (key x) (key z)).
    + constructor; [now apply IH|].
      apply Forall_forall. intros y Hy. apply insert_desc_In in Hy.
      destruct Hy as [-> | Hy]; [lia|].
      now apply (proj1 (Forall_forall _ _) Hall).
    + constructor; [exact Hl|].
      constructor; [lia|].
      apply Forall_forall. intros y Hy.
      pose proof (proj1 (Forall_forall _ _) Hall y Hy). simpl in *. lia.
Qed.

Lemma order_by_desc_descending (l : list A) :
  descending key (order_by_desc key l).
Proof.
  induction l as [|x l IH]; simpl.
  - constructor.
  - now apply insert_desc_descending.
Qed.

Lemma limit_descending (n : nat) (l : list A) :
  descending key l -> descending key (limit n l).
Proof.
  unfold descending, limit. revert l.
  induction n as [|n IH]; intros [|y l] Hl; simpl; try constructor.
  - apply IH. now inversion Hl.
  - inversion Hl as [|? ? _ Hall]; subst.
    apply Forall_forall. intros z Hz.
    apply (proj1 (Forall_forall _ _) Hall). now apply (limit_In n).
Qed.

End Ordering.

(** The matches of the pattern are relationships between nodes of the graph. *)
Lemma flaggings_spec (db : GraphDB) (m : Flagging) :
  In m (flaggings db) ->
  nth_error (taxpayers db) (f_t m) = Some (f_taxpayer m) /\
  nth_error (risk_flags db) (f_rf m) = Some (f_risk m).
Proof.
  unfold flaggings. rewrite in_flat_map. intros (e & _ & Hm).
  unfold flagging_of in Hm.
  destruct (nth_error (taxpayers db) (fb_taxpayer e)) as [t|] eqn:Et; [|easy].
  destruct (nth_error (risk_flags db) (fb_risk e)) as [rf|] eqn:Er; [|easy].
  destruct Hm as [<- | []]. now split.
Qed.

Lemma related_rows_spec (db : GraphDB) (tin : string) (m2 : Flagging) :
  In m2 (related_rows db tin) <->
  In m2 (flaggings db) /\ tin_differs tin (f_taxpayer m2) = true /\
  exists m1, In m1 (flaggings db) /\ tin_is tin (f_taxpayer m1) = true /\
             f_rf m2 = f_rf m1.
Proof.
  unfold related_rows. rewrite in_flat_map. split.
  - intros (m1 & H1 & H2).
    destruct (tin_is tin (f_taxpayer m1)) eqn:E; [|easy].
    apply filter_In in H2. destruct H2 as (H2 & H3).
    apply andb_true_iff in H3. destruct H3 as (H3 & H4).
    apply Nat.eqb_eq in H3. repeat split; try assumption.
    now exists m1.
  - intros (H2 & Hd & m1 & H1 & Ht & Hr).
    exists m1. split; [assumption|]. rewrite Ht.
    apply filter_In. split; [assumption|].
    apply andb_true_iff. split; [now apply Nat.eqb_eq | assumption].
Qed.

(** [COUNT(DISTINCT rf)] of the group of [t2] counts the shared risk flags. *)
Lemma shared_count (db : GraphDB) (tin : string) (m : Flagging) :
  In m (related_rows db tin) ->
  count_distinct
    (map f_rf (filter (fun x => f_t x =? f_t m) (related_rows db tin))) =
  List.length (shared_risk_flags db tin (f_t m)).
Proof.
  intros Hm. unfold count_distinct. apply Permutation_length.
  apply NoDup_Permutation.
  - apply NoDup_nodup.
  - unfold shared_risk_flags. apply NoDup_filter, seq_NoDup.
  - intros r. rewrite nodup_In, in_map_iff. unfold shared_risk_flags.
    rewrite filter_In, in_seq, andb_true_iff.
    unfold flags_tin, flags. rewrite !existsb_exists. split.
    + intros (m2 & <- & H2). apply filter_In in H2. destruct H2 as (H2 & Ht).
      apply Nat.eqb_eq in Ht.
      apply related_rows_spec in H2.
      destruct H2 as (H2 & _ & m1 & H1 & Htin & Hr).
      destruct (flaggings_spec db m2 H2) as (_ & Hrf).
      assert (f_rf m2 < List.length (risk_flags db))
        by (apply nth_error_Some; congruence).
      repeat split; try lia.
      * exists m1. split; [assumption|]. rewrite Htin. simpl.
        apply Nat.eqb_eq. congruence.
      * exists m2. split; [assumption|].
        apply andb_true_iff. split; now apply Nat.eqb_eq.
    + intros (_ & (m1 & H1 & Hm1) & (m2 & H2 & Hm2)).
      apply andb_true_iff in Hm1, Hm2.
      destruct Hm1 as (Htin & Hr1). destruct Hm2 as (Ht2 & Hr2).
      apply Nat.eqb_eq in Hr1, Ht2, Hr2.
      exists m2. split; [assumption|].
      apply filter_In. split; [|now apply Nat.eqb_eq].
      apply related_rows_spec. split; [assumption|]. split.
      * apply related_rows_spec in Hm. destruct Hm as (Hm & Hd & _).
        destruct (flaggings_spec db m Hm) as (Et & _).
        destruct (flaggings_spec db m2 H2) as (Et2 & _).
        rewrite Ht2 in Et2. congruence.
      * exists m1. repeat split; try assumption. congruence.
Qed.

(** The similarity score is a whole number of tenths, the one nearest to
    [100 * k / 18]: the distance is below one twentieth, so that the way
    halves are rounded plays no role. *)
Lemma similarity_tenths (k : nat) :
  similarity k = Qmake ((1000 * Z.of_nat k + 9) / 18) 10.
Proof.
  unfold similarity, ROUND1. f_equal.
  rewrite (Qfloor_comp _ (Qmake (1000 * Z.of_nat k + 9) 18)).
  - reflexivity.
  - generalize (Z.of_nat k); intros z.
    unfold Qeq, Qdiv, Qmult, Qplus, Qinv; cbn [Qnum Qden]. lia.
Qed.



Lemma query_related_row (db : GraphDB) (tin : string) (row : RelatedRow) :
  In row (query_related db tin) ->
  exists t2 tp,
    nth_error (taxpayers db) t2 = Some tp /\
    tin_differs tin tp = true /\
    rr_tin row = TIN tp /\
    rr_sharedRisks row = List.length (shared_risk_flags db tin t2) /\
    1 <= rr_sharedRisks row /\
    rr_similarityScore row = similarity (rr_sharedRisks row).
Proof.
  unfold query_related. intros H.
  apply limit_In in H. rewrite order_by_desc_In, in_flat_map in H.
  destruct H as (t2 & _ & H). unfold related_group in H.
  destruct (filter (fun m => f_t m =? t2) (related_rows db tin))
    as [|m ms] eqn:E; [easy|].
  destruct H as [<- | []]. cbn [rr_tin rr_sharedRisks rr_similarityScore].
  assert (Hm : In m (filter (fun m => f_t m =? t2) (related_rows db tin)))
    by (rewrite E; now left).
  apply filter_In in Hm. destruct Hm as (Hm & Ht). apply Nat.eqb_eq in Ht.
  pose proof (shared_count db tin m Hm) as Hc. rewrite Ht, E in Hc.
  pose proof (proj1 (related_rows_spec db tin m) Hm) as (Hf & Hd & _).
  destruct (flaggings_spec db m Hf) as (Hn & _). rewrite Ht in Hn.
  exists t2, (f_taxpayer m). repeat split; try assumption; try reflexivity.
  unfold count_distinct. cbn [map].
  assert (Hin : In (f_rf m) (nodup Nat.eq_dec (f_rf m :: map f_rf ms)))
    by (apply nodup_In; now left).
  destruct (nodup Nat.eq_dec (f_rf m :: map f_rf ms)); [easy | simpl; lia].
Qed.


Example sample_related :
  map (fun r => (rr_tin r, rr_sharedRisks r, rr_similarityScore r))
      (query_related sample_db "1000") =
  [ (Some "2000", 3, Qmake 167 10); (Some "3000", 1, Qmake 56 10) ].
Proof. vm_compute. reflexivity. Qed.

Example sample_high_impact :
  query_high sample_db default_min_exposure =
  [ CaseOfTaxpayer (Some "2000") (Some "Bolt Ltd") (Some "Kampala")
      (Some "Manufacturing") 2 5200000000;
    CaseOfTaxpayer (Some "1000") (Some "Acme Ltd") (Some "Kampala")
      (Some "Manufacturing") 1 2300000000 ].
Proof. vm_compute. reflexivity. Qed.

Example sample_by_name :
  map (fun r => (nr_tin r, nr_riskCount r, nr_totalExposure r))
      (query_name sample_db (Some "LTD")) =
  [ (Some "2000", 4, 5200001000%Z); (Some "1000", 3, 2300001200%Z) ].
Proof. vm_compute. reflexivity. Qed.

Example sample_related_dispatch :
  exists rows,
    generate_response (neo4j sample_db never_fails DispatchSpec.store_empty)
      "related" (snd (detect_intent "tin 1000")) "similar to tin 1000" [] =
      (Ok (FoundRelated 2 "1000", Some (PRelated rows)), [QRelated "1000"]) /\
    map rr_similarityScore rows = [ Qmake 167 10; Qmake 56 10 ].
Proof. eexists. split; vm_compute; reflexivity. Qed.

Lemma sum_amounts_at_least (m : Z) (xs : list (option Z)) :
  (0 <= m)%Z -> Forall (fun x => at_least m x = true) xs ->
  (0 <= sum_amounts xs)%Z /\ (xs <> [] -> (m <= sum_amounts xs)%Z).
Proof.
  intros Hm. induction 1 as [|x xs Hx _ IH]; simpl; [split; [lia | easy]|].
  destruct x as [e|]; [|discriminate]. simpl in Hx. apply Z.leb_le in Hx.
  split; [lia | intros _; lia].
Qed.

Lemma query_high_of_risk_row (db : GraphDB) (risk_id : string) (m : Z) (c : CaseRow) :
  In c (query_high_of_risk db risk_id m) -> (m <= case_exposure c)%Z.
Proof.
  unfold query_high_of_risk. intros H.
  apply limit_In in H. rewrite order_by_desc_In, in_flat_map in H.
  destruct H as (f & Hf & Hc). apply filter_In in Hf. destruct Hf as (_ & Hf).
  apply andb_true_iff in Hf. destruct Hf as (_ & Hf).
  unfold case_of_flagging in Hc.
  destruct (ExposureAmount (f_edge f)) as [e|]; [|easy].
  destruct Hc as [<- | []]. simpl in *. now apply Z.leb_le.
Qed.

Lemma query_high_row (db : GraphDB) (m : Z) (c : CaseRow) :
  (0 <= m)%Z -> In c (query_high db m) -> (m <= case_exposure c)%Z.
Proof.
  unfold query_high. intros Hm H.
  apply limit_In in H. rewrite order_by_desc_In, in_map_iff in H.
  destruct H as (k & <- & Hk). apply nodup_In, in_map_iff in Hk.
  destruct Hk as (f & Hkey & Hf).
  unfold case_group. destruct k as [[[tin name] region] sector].
  cbn [case_exposure].
  set (rows := filter _ (flaggings db)) in *.
  set (members := filter _ rows).
  assert (Hin : In f members).
  { apply filter_In. split; [assumption|]. unfold same_case_key.
    rewrite Hkey. now destruct (case_key_eq_dec _ _). }
  apply (sum_amounts_at_least m); [assumption| |].
  - apply Forall_forall. intros x Hx. apply in_map_iff in Hx.
    destruct Hx as (f' & <- & Hf'). apply filter_In in Hf'.
    destruct Hf' as (Hf' & _). apply filter_In in Hf'. tauto.
  - destruct members; [easy | discriminate].
Qed.

(** C7: the name search and the related search return at most 10 rows, and the
    high-impact search (with or without a risk) at most 20, whatever the graph
    holds; with the default threshold every high-impact row has an exposure of
    at least one billion, and the rows are ranked descending by exposure (the
    rows of the name search by total exposure). *)
Theorem C7_result_lists_are_capped_and_ranked :
  forall (db : GraphDB) (fails : list Query -> Query -> bool) (other : Graph)
         (name risk_id : option string) (tin : string) (h : list Query),
    (exists rows h',
       search_taxpayer_by_name (neo4j db fails other) name h = (Ok rows, h') /\
       List.length rows <= 10 /\ descending nr_totalExposure rows) /\
    (exists rows h',
       find_related_taxpayers (neo4j db fails other) tin h = (Ok rows, h') /\
       List.length rows <= 10) /\
    (exists rows h',
       find_high_impact_cases (neo4j db fails other) risk_id
         default_min_exposure h = (Ok rows, h') /\
       List.length rows <= 20 /\
       (forall c, In c rows -> (1000000000 <= case_exposure c)%Z) /\
       descending case_exposure rows).
Proof.
  intros db fails other name risk_id tin h. split; [|split].
  - unfold search_taxpayer_by_name, try_except, bind, call, ret;
      cbn [run_name neo4j].
    destruct (fails h (QTaxpayerByName name)); do 2 eexists;
      (split; [reflexivity|]); split.
    + simpl; lia.
    + constructor.
    + apply limit_length.
    + apply limit_descending, order_by_desc_descending.
  - unfold find_related_taxpayers, try_except, bind, call, ret;
      cbn [run_related neo4j].
    destruct (fails h (QRelated tin)); do 2 eexists;
      (split; [reflexivity|]); [simpl; lia | apply limit_length].
  - assert (Hnil : List.length (@nil CaseRow) <= 20 /\
                   (forall c, In c (@nil CaseRow) ->
                              (1000000000 <= case_exposure c)%Z) /\
                   descending case_exposure (@nil CaseRow)).
    { split; [simpl; lia | split; [easy | constructor]]. }
    unfold find_high_impact_cases, try_except, bind, call, ret.
    destruct risk_id as [[|c r]|]; cbn [run_high run_high_of_risk neo4j];
      match goal with |- context [fails h ?q] => destruct (fails h q) end;
      do 2 eexists; (split; [reflexivity|]); try exact Hnil;
      (split; [apply limit_length|]);
      (split; [|apply limit_descending, order_by_desc_descending]).
    + intros x Hx. now apply (query_high_row db default_min_exposure).
    + intros x Hx.
      now apply (query_high_of_risk_row db (String c r) default_min_exposure).
    + intros x Hx. now apply (query_high_row db default_min_exposure).
Qed.

End CypherFacts.

(** ** The audit-task operations *)

Module AuditTaskFacts.
Import Text AuditTasks AuditTaskSpec.

Lemma set_tasks_In (task_id : string) (f : AuditTask -> AuditTask)
      (g : TaskGraph) (t' : AuditTask) :
  In t' (tasks (set_tasks task_id f g)) ->
  (exists t, In t (tasks g) /\ is_task task_id t = true /\ t' = f t) \/
  (In t' (tasks g) /\ is_task task_id t' = false).
Proof.
  unfold set_tasks; cbn [tasks with_tasks]. rewrite in_map_iff.
  intros (t & Ht & Hin). destruct (is_task task_id t) eqn:E.
  - left. exists t. now subst.
  - right. now subst.
Qed.

Lemma set_tasks_ok (task_id : string) (f : AuditTask -> AuditTask) (g : TaskGraph) :
  (forall t, (0 <= ProgressPercent t <= 100)%Z ->
             (0 <= ProgressPercent (f t) <= 100)%Z) ->
  progress_ok g -> progress_ok (set_tasks task_id f g).
Proof.
  unfold progress_ok. intros Hf Hg. apply Forall_forall. intros t' Ht'.
  rewrite Forall_forall in Hg.
  destruct (set_tasks_In _ _ _ _ Ht') as [(t & Hin & _ & ->) | (Hin & _)]; auto.
Qed.

Lemma touch_ok (env : Env) (task_id : string) (ts : list AuditTask) :
  Forall (fun t => (0 <= ProgressPercent t <= 100)%Z) ts ->
  Forall (fun t => (0 <= ProgressPercent t <= 100)%Z)
         (map (fun t => if is_task task_id t then touch env t else t) ts).
Proof.
  intros H. apply Forall_forall. intros t' Ht'. rewrite Forall_forall in H.
  apply in_map_iff in Ht'. destruct Ht' as (t & <- & Hin).
  destruct (is_task task_id t); cbn; auto.
Qed.

Lemma clamp_bounds (p : Z) : (0 <= clamp p <= 100)%Z.
Proof. unfold clamp. lia. Qed.

Lemma add_task_note_ok (env : Env) (task_id note : string) (g : TaskGraph) :
  progress_ok g -> progress_ok (snd (add_task_note env task_id note g)).
Proof.
  intros Hg. unfold add_task_note. destruct (raises env 0); [exact Hg|].
  apply set_tasks_ok; auto.
Qed.

Lemma status_update_ok (env : Env) (i s n : string) (g : TaskGraph) :
  progress_ok g -> progress_ok (snd (update_task_status env i s n g)).
Proof.
  intros Hg. unfold update_task_status. destruct (raises env 0); [exact Hg|].
  cbn [snd]. destruct (truthy n); [apply add_task_note_ok|];
    (apply set_tasks_ok; auto).
Qed.

Lemma step_ok (env : Env) (op : Operation) (g : TaskGraph) :
  progress_ok g -> progress_ok (snd (step env op g)).
Proof.
  intros Hg. destruct op as [d|i s n|i p|i a r|i n|i r|i n]; cbn [step].
  - unfold create_audit_task. destruct (raises env 0); [exact Hg|].
    unfold progress_ok in *; cbn [snd tasks]. apply Forall_app. split; [exact Hg|].
    apply Forall_forall. intros t Ht. apply in_map_iff in Ht.
    destruct Ht as (k & <- & _). cbn. lia.
  - now apply status_update_ok.
  - unfold update_task_progress. destruct (raises env 0); [exact Hg|].
    apply set_tasks_ok; [|exact Hg]. intros t _. cbn. apply clamp_bounds.
  - unfold reassign_task. destruct (raises env 0); [exact Hg|].
    destruct (_ * _ * _); [exact Hg|]. apply touch_ok, Hg.
  - now apply add_task_note_ok.
  - unfold link_risk_to_task. destruct (raises env 0); [exact Hg|].
    destruct (_ * _); [exact Hg|]. apply touch_ok, Hg.
  - unfold complete_task. destruct (raises env 0); [exact Hg|].
    apply set_tasks_ok; [|exact Hg]. intros t _. cbn. lia.
Qed.

Lemma run_ok (ops : list (Env * Operation)) (g : TaskGraph) :
  progress_ok g -> progress_ok (run ops g).
Proof.
  revert g. induction ops as [|[env op] ops IH]; intros g Hg; cbn [run];
    [exact Hg|].
  apply IH, step_ok, Hg.
Qed.

(** The status update writes no progress. *)
Lemma update_task_status_keeps_progress
      (env : Env) (task_id new_status notes : string) (g : TaskGraph) :
  map ProgressPercent (tasks (snd (update_task_status env task_id new_status notes g))) =
  map ProgressPercent (tasks g).
Proof.
  assert (Hset : forall f g0,
             (forall t, ProgressPercent (f t) = ProgressPercent t) ->
             map ProgressPercent (tasks (set_tasks task_id f g0)) =
             map ProgressPercent (tasks g0)).
  { intros f g0 Hf. unfold set_tasks; cbn [tasks with_tasks].
    rewrite map_map. apply map_ext. intros t.
    destruct (is_task task_id t); [apply Hf | reflexivity]. }
  unfold update_task_status. destruct (raises env 0); [reflexivity|]. cbn [snd].
  destruct (truthy notes).
  - unfold add_task_note. destruct (raises (later env) 0); cbn [snd];
      rewrite ?Hset; auto.
  - now rewrite Hset.
Qed.

(** [complete_task] on a store that answers: every task of that identifier is
    Completed, at 100 percent, with the completion date stamped. *)
Lemma complete_task_completes
      (env : Env) (task_id completion_notes : string) (g : TaskGraph) (t : AuditTask) :
  raises env 0 = false ->
  In t (tasks (snd (complete_task env task_id completion_notes g))) ->
  TaskID t = task_id ->
  Status t = "Completed" /\ ProgressPercent t = 100%Z /\
  CompletedDate t = Some (now env).
Proof.
  intros Hup Hin Hid. unfold complete_task in Hin. rewrite Hup in Hin.
  cbn [snd] in Hin.
  destruct (set_tasks_In _ _ _ _ Hin) as [(t0 & _ & _ & ->) | (_ & Hno)].
  - now cbn.
  - unfold is_task in Hno. rewrite Hid, String.eqb_refl in Hno. discriminate.
Qed.

(** C5: on a task created by [create_audit_task], the status updates
    Assigned, In Progress, Completed leave the task Completed with a
    completion date and with its progress still at 0, whereas [complete_task]
    puts the progress at 100 (for either behaviour of the server on the
    conditional [SET]). *)
Theorem C5_status_update_to_completed_keeps_progress :
  forall keeps_row : bool,
    let env := env_at 7 keeps_row in
    map (fun t => (Status t, ProgressPercent t, CompletedDate t))
        (tasks (run [ (env, Create sample_data);
                      (env, UpdateStatus "T0" "In Progress" "");
                      (env, UpdateStatus "T0" "Completed" "") ] base_graph)) =
      [ ("Completed", 0%Z, Some 7) ] /\
    map (fun t => (Status t, ProgressPercent t, CompletedDate t))
        (tasks (run [ (env, Create sample_data);
                      (env, UpdateStatus "T0" "In Progress" "");
                      (env, Complete "T0" "all checked") ] base_graph)) =
      [ ("Completed", 100%Z, Some 7) ].
Proof. intros [|]; split; reflexivity. Qed.

(** C9: every write operation keeps the progress of every task in [0, 100]:
    a created task starts at 0, the progress update stores
    [max(0, min(100, p))], completion stores 100, and the other operations do
    not write it. *)
Theorem C9_progress_stays_within_bounds :
  forall (env : Env) (op : Operation) (g : TaskGraph),
    progress_ok g ->
    progress_ok (snd (step env op g)) /\
    (forall ops, progress_ok (run ops g)) /\
    (forall d t, In t (tasks (snd (create_audit_task env d g))) ->
                 In t (tasks g) \/ ProgressPercent t = 0%Z) /\
    (forall task_id p t,
        raises env 0 = false ->
        In t (tasks (snd (update_task_progress env task_id p g))) ->
        TaskID t = task_id ->
        ProgressPercent t = Z.max 0 (Z.min 100 p) /\
        (0 <= ProgressPercent t <= 100)%Z) /\
    (forall task_id n t,
        raises env 0 = false ->
        In t (tasks (snd (complete_task env task_id n g))) ->
        TaskID t = task_id -> ProgressPercent t = 100%Z).
Proof.
  intros env op g Hg. split; [now apply step_ok|].
  split; [intros ops; now apply run_ok|]. split; [|split].
  - intros d t. unfold create_audit_task. destruct (raises env 0); [now left|].
    cbn [snd tasks]. rewrite in_app_iff, in_map_iff.
    intros [H | (n & <- & _)]; [now left | now right].
  - intros task_id p t Hup Hin Hid. unfold update_task_progress in Hin.
    rewrite Hup in Hin. cbn [snd] in Hin.
    destruct (set_tasks_In _ _ _ _ Hin) as [(t0 & _ & _ & ->) | (_ & Hno)].
    + cbn. split; [reflexivity | apply clamp_bounds].
    + unfold is_task in Hno. rewrite Hid, String.eqb_refl in Hno. discriminate.
  - intros task_id n t Hup Hin Hid.
    now destruct (complete_task_completes env task_id n g t Hup Hin Hid)
      as (_ & H & _).
Qed.

Lemma C9_progress_stays_within_bounds_witness :
  let env := env_at 7 true in
  let g := snd (step env (Create sample_data) base_graph) in
  progress_ok g /\
  progress_ok (snd (step env (UpdateProgress "T0" 250) g)) /\
  map ProgressPercent (tasks g) = [ 0%Z ] /\
  map ProgressPercent (tasks (snd (step env (UpdateProgress "T0" 250) g))) =
    [ 100%Z ].
Proof.
  intros env g.
  assert (H : progress_ok g) by (repeat constructor; cbn; lia).
  split; [exact H|]. split; [|split; reflexivity].
  exact (proj1 (C9_progress_stays_within_bounds env
                  (UpdateProgress "T0" 250) g H)).
Defined.

End AuditTaskFacts.

(** ** More on intent detection *)

Module IntentMore.
Import Text Regex Tatis360 IntentSpec MoreSpec TextFacts RegexFacts IntentFacts.

(** *** Normalisation *)

Lemma lower_char_idem (c : ascii) : lower_char (lower_char c) = lower_char c.
Proof. destruct c as [[] [] [] [] [] [] [] []]; reflexivity. Qed.


Lemma lower_char_space (c : ascii) : is_space c = true -> lower_char c = c.
Proof. destruct c as [[] [] [] [] [] [] [] []]; intros H; try reflexivity; discriminate H. Qed.

Lemma lower_idem (s : string) : lower (lower s) = lower s.
Proof.
  induction s as [|c s IH]; simpl; [reflexivity|].
  now rewrite lower_char_idem, IH.
Qed.

Lemma lower_app (a b : string) : lower (a ++ b) = lower a ++ lower b.
Proof. induction a as [|c a IH]; simpl; [reflexivity | now rewrite IH]. Qed.

Lemma lower_spaces (pad : string) :
  all_chars is_space pad = true -> lower pad = pad.
Proof.
  induction pad as [|c pad IH]; simpl; [reflexivity|].
  intros H. apply andb_true_iff in H. destruct H as (Hc & Hp).
  now rewrite (lower_char_space c Hc), IH.
Qed.

Lemma lstrip_spaces (pad s : string) :
  all_chars is_space pad = true -> lstrip (pad ++ s) = lstrip s.
Proof.
  induction pad as [|c pad IH]; simpl; [reflexivity|].
  intros H. apply andb_true_iff in H. destruct H as (Hc & Hp).
  rewrite Hc. now apply IH.
Qed.

Lemma rstrip_spaces (pad : string) :
  all_chars is_space pad = true -> rstrip pad = "".
Proof.
  induction pad as [|c pad IH]; simpl; [reflexivity|].
  intros H. apply andb_true_iff in H. destruct H as (Hc & Hp).
  now rewrite (IH Hp), Hc.
Qed.

Lemma rstrip_app_spaces (s pad : string) :
  all_chars is_space pad = true -> rstrip (s ++ pad) = rstrip s.
Proof.
  intros H. induction s as [|c s IH]; simpl.
  - now apply rstrip_spaces.
  - now rewrite IH.
Qed.

Lemma strip_app_spaces (s pad : string) :
  all_chars is_space pad = true -> strip (s ++ pad) = strip s.
Proof.
  intros H. unfold strip. induction s as [|c s IH]; simpl.
  - rewrite <- (append_nil_r pad), (lstrip_spaces pad "" H). reflexivity.
  - destruct (is_space c); [exact IH|].
    change (String c (s ++ pad)) with (String c s ++ pad).
    now apply rstrip_app_spaces.
Qed.

Lemma normalize_padded (pad1 text pad2 : string) :
  all_chars is_space pad1 = true -> all_chars is_space pad2 = true ->
  normalize (pad1 ++ text ++ pad2) = normalize text.
Proof.
  intros H1 H2. unfold normalize.
  rewrite !lower_app, (lower_spaces pad1 H1), (lower_spaces pad2 H2).
  unfold strip at 1. rewrite (lstrip_spaces pad1 _ H1).
  now apply strip_app_spaces.
Qed.

(** X1: the classification ignores the case of ASCII letters and any
    whitespace around the text. *)
Theorem X1_detect_intent_ignores_case_and_padding :
  forall (text pad1 pad2 : string),
    all_chars is_space pad1 = true -> all_chars is_space pad2 = true ->
    detect_intent (pad1 ++ text ++ pad2) = detect_intent text /\
    detect_intent (pad1 ++ lower text ++ pad2) = detect_intent text.
Proof.
  intros text pad1 pad2 H1 H2. unfold detect_intent.
  rewrite !normalize_padded by assumption. split; [reflexivity|].
  unfold normalize. now rewrite lower_idem.
Qed.

Lemma X1_detect_intent_ignores_case_and_padding_witness :
  detect_intent ("  " ++ "Sector Mining" ++ String (ascii_of_nat 9) " ") =
    detect_intent "Sector Mining" /\
  detect_intent ("  " ++ lower "Sector Mining" ++ String (ascii_of_nat 9) " ") =
    detect_intent "Sector Mining".
Proof.
  exact (X1_detect_intent_ignores_case_and_padding
           "Sector Mining" "  " (String (ascii_of_nat 9) " ") eq_refl eq_refl).
Defined.

(** *** One definition of the scan at a time *)

Lemma scan_step (n : string) (c : IntentConfig)
      (rest : list (string * IntentConfig)) (s : string) (r : string * Params) :
  scan ((n, c) :: rest) s = r ->
  (exists g, first_pattern (patterns c) s = Some g /\ r = (n, Some g)) \/
  (first_pattern (patterns c) s = None /\ keyword_hit c s = true /\ r = (n, None)) \/
  (first_pattern (patterns c) s = None /\ keyword_hit c s = false /\
   scan rest s = r).
Proof.
  cbn [scan]. destruct (first_pattern (patterns c) s) as [g|].
  - intros <-. left. now exists g.
  - destruct (keyword_hit c s); intros H; right; [left | right]; auto.
Qed.

Lemma first_pattern_inv (ps : list regex) (s : string) (g : option string) :
  first_pattern ps s = Some g -> exists p, In p ps /\ search p s = Some g.
Proof.
  induction ps as [|p ps IH]; simpl; [discriminate|].
  destruct (search p s) as [g'|] eqn:E.
  - intros H; inversion H; subst. exists p. auto.
  - intros H. destruct (IH H) as (q & Hq & Hs). exists q. auto.
Qed.

Lemma contains_prefix (p q s : string) :
  contains (p ++ q) s = true -> contains p s = true.
Proof.
  intros H. destruct (contains_inv _ _ H) as (pre & post & ->).
  rewrite append_assoc. apply contains_app.
Qed.

(** A pattern that begins with literal text is found only in a text that
    contains this text. *)
Lemma search_literal_prefix (p : string) (r : regex) (s : string) (g : option string) :
  search (Cat (Str p) r) s = Some g -> contains p s = true.
Proof.
  induction s as [|c s IH]; cbn [search]; unfold match_here; cbn [rmatch];
    rewrite contains_unfold.
  - destruct (strip_prefix p ""); [reflexivity|discriminate].
  - destruct (strip_prefix p (String c s)); [reflexivity|]. exact IH.
Qed.

Lemma keyword_hit_intro (c : IntentConfig) (kw s : string) :
  In kw (keywords c) -> contains kw s = true -> keyword_hit c s = true.
Proof.
  intros Hin Hc. unfold keyword_hit. apply existsb_exists. now exists kw.
Qed.

(** *** Patterns without a group, and the patterns [keyword.*(\w+)] *)

Lemma star_some {R : Type} (c : cclass) (s : string) (k : string -> option R) (x : R) :
  star c s k = Some x -> exists s', k s' = Some x.
Proof.
  induction s as [|a s IH]; simpl; [intros H; now exists ""|].
  destruct (in_class c a); [|intros H; now exists (String a s)].
  destruct (star c s k) as [y|] eqn:E.
  - intros H; inversion H; subst. now apply IH.
  - intros H. now exists (String a s).
Qed.

Lemma star_none {R : Type} (c : cclass) (s : string) (k : string -> option R) :
  star c s k = None -> k s = None.
Proof.
  destruct s as [|a s]; simpl; [auto|].
  destruct (in_class c a); [|auto].
  destruct (star c s k); [discriminate | auto].
Qed.

Lemma rmatch_no_group {R : Type} (r : regex) :
  has_group r = false ->
  forall (s : string) (g : option string)
         (k : string -> option string -> option R) (x : R),
    rmatch r s g k = Some x -> exists s', k s' g = Some x.
Proof.
  induction r as [p|c|c|r1 IH1 r2 IH2|r1 IH1 r2 IH2|r1 IH1]; cbn [has_group rmatch];
    intros Hg s g k x H.
  - destruct (strip_prefix p s) as [s'|]; [now exists s' | discriminate].
  - now apply (star_some c s (fun s' => k s' g)).
  - unfold plus in H. destruct s as [|a s]; [discriminate|].
    destruct (in_class c a); [|discriminate].
    now apply (star_some c s (fun s' => k s' g)).
  - apply orb_false_iff in Hg. destruct Hg as (H1 & H2).
    destruct (IH1 H1 _ _ _ _ H) as (s1 & Hs1). now apply (IH2 H2 s1).
  - apply orb_false_iff in Hg. destruct Hg as (H1 & H2).
    destruct (rmatch r1 s g k) as [y|] eqn:E.
    + inversion H; subst. now apply (IH1 H1 s).
    + now apply (IH2 H2 s).
  - discriminate.
Qed.

Lemma search_no_group (r : regex) (s : string) (g : option string) :
  has_group r = false -> search r s = Some g -> g = None.
Proof.
  intros Hg. induction s as [|c s IH]; cbn [search]; unfold match_here;
    destruct (rmatch r _ None (fun _ g0 => Some g0)) as [y|] eqn:E; intros H;
    try discriminate; try (now apply IH);
    inversion H; subst;
    destruct (rmatch_no_group r Hg _ _ _ _ E) as (s' & Hs'); congruence.
Qed.

(** [(\w+)] at the start of [s]: the longest run of word characters. *)
Lemma plus_word_capture (s : string) :
  plus WordChar s
       (fun s' => Some (Some (take (String.length s - String.length s') s))) =
  if starts_with is_word s then Some (Some (take_while is_word s)) else None.
Proof.
  destruct s as [|x s]; [reflexivity|].
  cbn [plus starts_with in_class]. destruct (is_word x) eqn:E; [|reflexivity].
  rewrite (star_greedy WordChar
             (fun s' => Some (take (String.length (String x s) - String.length s')
                                   (String x s)))).
  change (in_class WordChar) with is_word.
  assert (D : drop_while is_word s = drop_while is_word (String x s))
    by (cbn [drop_while]; now rewrite E).
  now rewrite D, take_consumed.
Qed.

(** [.*(\w+)]: the greedy [.*] leaves exactly one word character to the
    group. *)
Lemma star_any_single (s : string) (g : option string) :
  star AnyChar s
       (fun s2 =>
          plus WordChar s2
               (fun s3 => Some (Some (take (String.length s2 - String.length s3) s2)))) =
    Some g ->
  exists a c b,
    s = a ++ String c b /\ g = Some (String c "") /\ is_word c = true.
Proof.
  induction s as [|x s IH]; cbn [star].
  - rewrite plus_word_capture. discriminate.
  - destruct (in_class AnyChar x) eqn:A.
    + destruct (star AnyChar s _) as [y|] eqn:E.
      * intros H; inversion H; subst.
        destruct (IH eq_refl) as (a & c & b & -> & -> & Hc).
        now exists (String x a), c, b.
      * apply star_none in E. rewrite plus_word_capture in E |- *.
        cbn [starts_with take_while]. destruct (is_word x) eqn:W; [|discriminate].
        intros H; inversion H; subst.
        destruct (starts_with is_word s) eqn:Ws; [discriminate|].
        exists "", x, s. repeat split; try assumption.
        do 2 f_equal. destruct s as [|y s]; [reflexivity|].
        cbn in Ws |- *. now rewrite Ws.
    + rewrite plus_word_capture. cbn [starts_with take_while].
      destruct (is_word x) eqn:W; [|discriminate].
      intros _. exfalso. clear -A W.
      destruct x as [[] [] [] [] [] [] [] []]; cbv in A, W; congruence.
Qed.

Lemma search_kw_any_word_sound (kw s : string) (g : option string) :
  search (kw_any_word kw) s = Some g ->
  exists pre c post,
    g = Some (String c "") /\ is_word c = true /\ s = pre ++ String c post.
Proof.
  assert (Hm : forall s0 g0, match_here (kw_any_word kw) s0 = Some g0 ->
               exists pre c post,
                 g0 = Some (String c "") /\ is_word c = true /\
                 s0 = pre ++ String c post).
  { intros s0 g0. unfold match_here, kw_any_word. cbn [rmatch].
    destruct (strip_prefix kw s0) as [s1|] eqn:P; [|discriminate].
    intros H. apply star_any_single in H.
    destruct H as (a & c & b & -> & -> & Hc).
    exists (kw ++ a), c, b. repeat split; try assumption.
    rewrite (strip_prefix_inv _ _ _ P). now rewrite append_assoc. }
  induction s as [|x s IH]; cbn [search].
  - destruct (match_here (kw_any_word kw) "") eqn:E; [|discriminate].
    intros H; inversion H; subst. now apply Hm.
  - destruct (match_here (kw_any_word kw) (String x s)) eqn:E.
    + intros H; inversion H; subst. now apply Hm.
    + intros H. destruct (IH H) as (pre & c & post & -> & Hc & ->).
      now exists (String x pre), c, post.
Qed.

(** *** What the scan of the seven definitions can return *)






(** Take the first pattern that matched out of [first_pattern]. *)
Ltac crack P :=
  cbn [first_pattern patterns] in P;
  lazymatch type of P with
  | match search ?p ?s with _ => _ end = _ =>
      let S := fresh "S" in
      destruct (search p s) eqn:S; [ inversion P; subst; clear P | crack P ]
  | _ => discriminate P
  end.

(** The two kinds of extracted values: a complete word after a keyword and a
    space, or one word character somewhere after a keyword. *)
Lemma scan_intents_param (s tag w : string) :
  scan intents s = (tag, Some (Some w)) ->
  (In tag ["search_tin"; "sector_analysis"] /\
   exists kw pre post,
     s = pre ++ (kw ++ " ") ++ w ++ post /\ truthy w = true /\
     all_chars is_word w = true) \/
  (In tag ["risk_analysis"; "related"; "pathway"] /\
   exists pre c post,
     w = String c "" /\ is_word c = true /\ s = pre ++ String c post).
Proof.
  intros H. unfold intents in H.
  assert (Hword : forall kw, search (kw_word kw) s = Some (Some w) ->
            exists kw' pre post,
              s = pre ++ (kw' ++ " ") ++ w ++ post /\ truthy w = true /\
              all_chars is_word w = true).
  { intros kw S. apply search_kw_word_sound in S.
    destruct S as (pre & w' & post & E & -> & Hw & Ha & _).
    inversion E; subst. now exists kw, pre, post. }
  assert (Hany : forall kw, search (kw_any_word kw) s = Some (Some w) ->
            exists pre c post,
              w = String c "" /\ is_word c = true /\ s = pre ++ String c post).
  { intros kw S. apply search_kw_any_word_sound in S.
    destruct S as (pre & c & post & E & Hc & ->).
    inversion E; subst. now exists pre, c, post. }
  assert (Hnone : forall r, has_group r = false ->
            search r s = Some (Some w) -> False).
  { intros r Hr S. now apply (search_no_group r s _ Hr) in S. }
  (* search_tin *)
  apply scan_step in H. destruct H as [(g & P & E) | [(P & K & E) | (_ & K1 & H)]];
    [inversion E; subst; clear E | discriminate E |].
  { left. split; [simpl; tauto|]. crack P; eauto. }
  (* search_name: its patterns begin with "search " and "find " *)
  apply scan_step in H. destruct H as [(g & P & E) | [(P & K & E) | (_ & K2 & H)]];
    [inversion E; subst; clear E | discriminate E |].
  { exfalso. crack P.
    - apply search_literal_prefix in S.
      apply (contains_prefix "search" " ") in S.
      rewrite (keyword_hit_intro _ "search" s) in K1;
        [discriminate | simpl; tauto | exact S].
    - apply search_literal_prefix in S0.
      apply (contains_prefix "find" " ") in S0.
      rewrite (keyword_hit_intro _ "find" s) in K1;
        [discriminate | simpl; tauto | exact S0]. }
  (* risk_analysis *)
  apply scan_step in H. destruct H as [(g & P & E) | [(P & K & E) | (_ & K3 & H)]];
    [inversion E; subst; clear E | discriminate E |].
  { right. split; [simpl; tauto|]. crack P; eauto.
    exfalso. eapply Hnone; [|eassumption]. reflexivity. }
  (* related *)
  apply scan_step in H. destruct H as [(g & P & E) | [(P & K & E) | (_ & K4 & H)]];
    [inversion E; subst; clear E | discriminate E |].
  { right. split; [simpl; tauto|]. crack P; eauto. }
  (* pathway *)
  apply scan_step in H. destruct H as [(g & P & E) | [(P & K & E) | (_ & K5 & H)]];
    [inversion E; subst; clear E | discriminate E |].
  { right. split; [simpl; tauto|]. crack P; eauto. }
  (* sector_analysis *)
  apply scan_step in H. destruct H as [(g & P & E) | [(P & K & E) | (_ & K6 & H)]];
    [inversion E; subst; clear E | discriminate E |].
  { left. split; [simpl; tauto|]. crack P; eauto. }
  (* high_impact: no pattern has a group *)
  apply scan_step in H. destruct H as [(g & P & E) | [(P & K & E) | (_ & K7 & H)]];
    [inversion E; subst; clear E | discriminate E |].
  { exfalso. crack P; (eapply Hnone; [|eassumption]; reflexivity). }
  discriminate H.
Qed.

(** X2: the identifier search is chosen exactly when the normalized text
    contains one of ["tin"], ["search"], ["find"], ["taxpayer"] anywhere (also
    inside a longer word), whatever else the text says. *)
Theorem X2_identifier_search_iff_keyword_occurs :
  forall text : string,
    fst (detect_intent text) = "search_tin" <->
    exists kw, In kw ["tin"; "search"; "find"; "taxpayer"] /\
               contains kw (normalize text) = true.
Proof.
  intros text. unfold detect_intent. set (s := normalize text). split.
  - intros H. destruct (scan intents s) as [tag p] eqn:E. simpl in H. subst tag.
    unfold intents in E. apply scan_step in E.
    destruct E as [(g & P & _) | [(_ & K & _) | (_ & _ & E)]].
    + assert (Hkw : forall kw, search (kw_word kw) s = Some g ->
                contains kw s = true).
      { intros kw S. apply search_literal_prefix in S.
        now apply contains_prefix in S. }
      cbn [first_pattern patterns] in P.
      destruct (search (kw_word "search") s) eqn:S1;
        [exists "search"; split; [simpl; tauto | inversion P; subst; eauto]|].
      destruct (search (kw_word "find") s) eqn:S2;
        [exists "find"; split; [simpl; tauto | inversion P; subst; eauto]|].
      destruct (search (kw_word "tin") s) eqn:S3;
        [exists "tin"; split; [simpl; tauto | inversion P; subst; eauto]|].
      destruct (search (kw_word "taxpayer") s) eqn:S4;
        [exists "taxpayer"; split; [simpl; tauto | inversion P; subst; eauto]|].
      discriminate P.
    + unfold keyword_hit in K. apply existsb_exists in K.
      destruct K as (kw & Hin & Hc). now exists kw.
    + exfalso.
      match type of E with scan ?d s = _ => pose proof (scan_tag d s) as T end.
      rewrite E in T. simpl in T.
      repeat destruct T as [T|T]; try discriminate T; exact T.
  - intros (kw & Hin & Hc). unfold intents. cbn [scan].
    destruct (first_pattern _ s); [reflexivity|].
    rewrite (keyword_hit_intro _ kw s); [reflexivity | exact Hin | exact Hc].
Qed.

Lemma scan_intents_name (s : string) (p : Params) :
  scan intents s = ("search_name", p) -> p = None.
Proof.
  intros H. unfold intents in H.
  apply scan_step in H. destruct H as [(g & P & E) | [(P & K & E) | (_ & K1 & H)]];
    [discriminate E | discriminate E |].
  apply scan_step in H. destruct H as [(g & P & E) | [(P & K & E) | (_ & K2 & H)]].
  - exfalso. cbn [first_pattern patterns] in P.
    match type of P with
    | match search ?p1 s with _ => _ end = _ =>
        destruct (search p1 s) eqn:S1
    end.
    + apply search_literal_prefix in S1.
      apply (contains_prefix "search" " ") in S1.
      rewrite (keyword_hit_intro _ "search" s) in K1;
        [discriminate | simpl; tauto | exact S1].
    + match type of P with
      | match search ?p2 s with _ => _ end = _ =>
          destruct (search p2 s) eqn:S2; [|discriminate P]
      end.
      apply search_literal_prefix in S2.
      apply (contains_prefix "find" " ") in S2.
      rewrite (keyword_hit_intro _ "find" s) in K1;
        [discriminate | simpl; tauto | exact S2].
  - now inversion E.
  - exfalso.
    match type of H with scan ?d s = _ => pose proof (scan_tag d s) as T end.
    rewrite H in T. simpl in T.
    repeat destruct T as [T|T]; try discriminate T; exact T.
Qed.

(** X3: the name search is never detected with a name.  Its two patterns
    begin with ["search "] and ["find "], which the first definition catches,
    so ["search_name"] is only returned by its keywords, without parameter;
    the dispatch of such a result always asks the store for the empty name. *)
Theorem X3_name_search_never_carries_a_name :
  forall (text : string) (params : Params),
    detect_intent text = ("search_name", params) ->
    params = None /\
    forall (graph : Graph) (h : list Query),
      snd (generate_response graph "search_name" params text h) =
      (h ++ [QTaxpayerByName (Some "")])%list.
Proof.
  intros text params H. apply scan_intents_name in H. subst params.
  split; [reflexivity|]. intros graph h.
  unfold generate_response, search_taxpayer_by_name, try_except, bind, call, ret.
  simpl. destruct (run_name graph h (Some "")) as [|[|r rows]]; reflexivity.
Qed.

Lemma X3_name_search_never_carries_a_name_witness :
  snd (detect_intent "Business Uganda Breweries") = None /\
  forall (graph : Graph) (h : list Query),
    snd (generate_response graph "search_name"
           (snd (detect_intent "Business Uganda Breweries"))
           "Business Uganda Breweries" h) =
    (h ++ [QTaxpayerByName (Some "")])%list.
Proof.
  exact (X3_name_search_never_carries_a_name "Business Uganda Breweries"
           (snd (detect_intent "Business Uganda Breweries")) eq_refl).
Defined.

(** X4: the patterns [keyword.*(\w+)] of the risk analysis, the related
    search and the evidence pathway hand over a single character: the greedy
    [.*] runs to the last word character of the line and leaves only that one
    to the group (["similar 1234567890"] gives the identifier ["0"]). *)
Theorem X4_wildcard_patterns_capture_one_character :
  forall (text tag w : string),
    In tag ["risk_analysis"; "related"; "pathway"] ->
    detect_intent text = (tag, Some (Some w)) ->
    exists c, w = String c "" /\ is_word c = true.
Proof.
  intros text tag w Htag H. unfold detect_intent in H.
  apply scan_intents_param in H.
  destruct H as [(Hin & _) | (_ & pre & c & post & -> & Hc & _)].
  - exfalso. simpl in Htag, Hin.
    destruct Hin as [<- | [<- | []]];
      repeat destruct Htag as [Htag|Htag]; try discriminate Htag; exact Htag.
  - now exists c.
Qed.

Lemma X4_wildcard_patterns_capture_one_character_witness :
  detect_intent "Similar 1234567890" = ("related", Some (Some "0")) /\
  exists c, "0" = String c "" /\ is_word c = true.
Proof.
  split; [reflexivity|].
  apply (X4_wildcard_patterns_capture_one_character
           "Similar 1234567890" "related" "0").
  - simpl; tauto.
  - reflexivity.
Defined.



End IntentMore.

(** ** More on the dispatch *)

Module DispatchMore.
Import Text Regex Tatis360 DispatchSpec MoreSpec DispatchFacts.

Lemma name_search_returns (g : Graph) (name : option string) (h : list Query) :
  exists r, search_taxpayer_by_name g name h =
            (Ok r, (h ++ [QTaxpayerByName name])%list).
Proof. run_wrapper. destruct (run_name g h name); eexists; reflexivity. Qed.

Lemma related_returns (g : Graph) (tin : string) (h : list Query) :
  exists r, find_related_taxpayers g tin h = (Ok r, (h ++ [QRelated tin])%list).
Proof. run_wrapper. destruct (run_related g h tin); eexists; reflexivity. Qed.

Lemma high_impact_returns (g : Graph) (m : Z) (h : list Query) :
  exists r, find_high_impact_cases g None m h =
            (Ok r, (h ++ [QHighImpact m])%list).
Proof. run_wrapper. destruct (run_high g h m); eexists; reflexivity. Qed.

Lemma sector_returns (g : Graph) (s : option string) (h : list Query) :
  exists r, get_sector_risk_profile g s h =
            (Ok r, (h ++ [QSectorProfile s])%list).
Proof. run_wrapper. destruct (run_sector g h s); eexists; reflexivity. Qed.

(** X6: an intent without a branch in [generate_response] is answered with
    the help text, with an empty payload and no store call; this is the fate
    of ["risk_analysis"], which [detect_intent] does return. *)
Theorem X6_undispatched_intents_answer_with_help :
  forall (graph : Graph) (intent : string) (params : Params)
         (user_input : string) (h : list Query),
    ~ In intent dispatched_intents ->
    generate_response graph intent params user_input h = (Ok (Help, None), h).
Proof.
  intros graph intent params user_input h Hn. unfold generate_response.
  repeat match goal with
         | |- context [String.eqb intent ?s] =>
             destruct (String.eqb_spec intent s) as [->|_];
             [exfalso; apply Hn; simpl; tauto|]
         end.
  reflexivity.
Qed.

Lemma X6_undispatched_intents_answer_with_help_witness :
  fst (detect_intent "Risk analysis for Acme") = "risk_analysis" /\
  generate_response store_sample (fst (detect_intent "Risk analysis for Acme"))
    (snd (detect_intent "Risk analysis for Acme")) "Risk analysis for Acme" [] =
  (Ok (Help, None), []).
Proof.
  split; [reflexivity|].
  apply X6_undispatched_intents_answer_with_help.
  simpl. intros H. repeat destruct H as [H|H]; try discriminate H; exact H.
Defined.

(** X7: one dispatch makes at most two store calls, appended to the history
    of earlier calls, and only the evidence pathway makes two (the lookup of
    the taxpayer, then the pathway of its first risk). *)
Theorem X7_dispatch_makes_at_most_two_store_calls :
  forall (graph : Graph) (intent : string) (params : Params)
         (user_input : string) (h : list Query),
  exists qs,
    snd (generate_response graph intent params user_input h) = (h ++ qs)%list /\
    List.length qs <= 2 /\
    (List.length qs = 2 ->
     intent = "pathway" /\
     exists tin risk_id, qs = [QTaxpayerByTin tin; QRiskPathway tin risk_id]).
Proof.
  intros graph intent params user_input h.
  assert (Hnone : exists qs,
             h = (h ++ qs)%list /\ List.length qs <= 2 /\
             (List.length qs = 2 ->
              intent = "pathway" /\
              exists tin risk_id, qs = [QTaxpayerByTin tin; QRiskPathway tin risk_id])).
  { exists []. rewrite app_nil_r. repeat split; simpl; try lia; discriminate. }
  assert (Hone : forall q, exists qs,
             (h ++ [q])%list = (h ++ qs)%list /\ List.length qs <= 2 /\
             (List.length qs = 2 ->
              intent = "pathway" /\
              exists tin risk_id, qs = [QTaxpayerByTin tin; QRiskPathway tin risk_id])).
  { intros q. exists [q]. repeat split; simpl; try lia; discriminate. }
  unfold generate_response.
  destruct (String.eqb intent "search_tin").
  { destruct (truthy_opt (get_value params)) as [tin|]; [|exact Hnone].
    unfold bind at 1. destruct (tin_lookup_returns graph tin h) as (r & ->).
    destruct r as [r|]; [|apply Hone].
    unfold bind, lift, ret.
    destruct (sum_exposure _ _); apply Hone. }
  destruct (String.eqb intent "search_name").
  { unfold bind.
    destruct (name_search_returns graph (get_value_or params "") h) as (r & ->).
    destruct r; apply Hone. }
  destruct (String.eqb intent "related").
  { destruct (truthy_opt (get_value params)) as [tin|]; [|exact Hnone].
    unfold bind. destruct (related_returns graph tin h) as (r & ->).
    destruct r; apply Hone. }
  destruct (String.eqb_spec intent "pathway") as [->|_].
  { destruct (truthy_opt (get_value params)) as [tin|]; [|exact Hnone].
    unfold bind at 1. destruct (tin_lookup_returns graph tin h) as (r & ->).
    destruct r as [r|]; [|apply Hone].
    destruct (risks r) as [|[risk|] rest]; try apply Hone.
    unfold bind.
    destruct (pathway_returns graph tin (re_riskId risk) (h ++ [QTaxpayerByTin tin]))
      as (p & ->).
    assert (Htwo : exists qs,
              ((h ++ [QTaxpayerByTin tin]) ++ [QRiskPathway tin (re_riskId risk)])%list
              = (h ++ qs)%list /\ List.length qs <= 2 /\
              (List.length qs = 2 ->
               "pathway" = "pathway" /\
               exists tin0 risk_id,
                 qs = [QTaxpayerByTin tin0; QRiskPathway tin0 risk_id])).
    { exists [QTaxpayerByTin tin; QRiskPathway tin (re_riskId risk)].
      rewrite <- app_assoc. repeat split; simpl; try lia; eauto. }
    destruct p as [pw|]; [|exact Htwo].
    destruct (pw_exposureAmount pw); exact Htwo. }
  destruct (String.eqb intent "high_impact").
  { unfold bind.
    destruct (high_impact_returns graph default_min_exposure h) as (r & ->).
    destruct r; apply Hone. }
  destruct (String.eqb intent "sector_analysis").
  { unfold bind.
    destruct (sector_returns graph (get_value_or params "Manufacturing") h)
      as (r & ->).
    destruct r; apply Hone. }
  exact Hnone.
Qed.

Lemma sum_exposure_raises (l : list RiskEntry) (acc : Z) :
  (exists x, sum_exposure l acc = Raise x) <->
  exists e, In e l /\ re_exposureAmount e = None.
Proof.
  revert acc. induction l as [|r l IH]; intros acc; simpl.
  - split; [intros (x & H); discriminate | intros (e & [] & _)].
  - destruct (re_exposureAmount r) as [v|] eqn:E.
    + rewrite IH. split.
      * intros (e & Hin & He). exists e. auto.
      * intros (e & [<- | Hin] & He); [congruence|]. exists e. auto.
    + split; [intros _; exists r; auto | intros _; now exists TypeError].
Qed.

Lemma sum_exposure_type_error (l : list RiskEntry) (acc : Z) (x : exn) :
  sum_exposure l acc = Raise x -> x = TypeError.
Proof.
  revert acc. induction l as [|r l IH]; intros acc; simpl; [discriminate|].
  destruct (re_exposureAmount r); [apply IH | congruence].
Qed.

(** X8: the identifier dispatch ends in a [TypeError] exactly when the store
    returned a taxpayer one of whose risks has no exposure amount (the sum of
    the exposures adds [None]); the error is raised after the store call and
    is not caught. *)
Theorem X8_identifier_lookup_raises_on_null_exposure :
  forall (graph : Graph) (tin user_input : string) (h : list Query),
    truthy tin = true ->
    (generate_response graph "search_tin" (Some (Some tin)) user_input h =
       (Raise TypeError, (h ++ [QTaxpayerByTin tin])%list) <->
     exists r rows e,
       run_tin graph h tin = Rows (r :: rows) /\
       In e (truthy_entries (risks r)) /\ re_exposureAmount e = None) /\
    (forall x, fst (generate_response graph "search_tin" (Some (Some tin))
                      user_input h) = Raise x ->
               generate_response graph "search_tin" (Some (Some tin)) user_input h =
               (Raise TypeError, (h ++ [QTaxpayerByTin tin])%list)).
Proof.
  intros graph tin user_input h Htin.
  unfold generate_response. cbn [String.eqb Ascii.eqb Bool.eqb].
  unfold truthy_opt, get_value. rewrite Htin. run_wrapper.
  destruct (run_tin graph h tin) as [|[|r rows]]; cbn [first_row].
  - split; [split; [discriminate|] | discriminate].
    intros (r & rows & e & H & _). discriminate H.
  - split; [split; [discriminate|] | discriminate].
    intros (r & rows & e & H & _). discriminate H.
  - destruct (sum_exposure (truthy_entries (risks r)) 0) as [v|x] eqn:E.
    + split; [split; [discriminate|] | discriminate].
      intros (r' & rows' & e & H & Hin & He). inversion H; subst.
      assert (Hx : exists x, sum_exposure (truthy_entries (risks r')) 0 = Raise x)
        by (apply sum_exposure_raises; eauto).
      destruct Hx as (x & Hx). congruence.
    + pose proof (sum_exposure_type_error _ _ _ E) as ->.
      split; [split; [|reflexivity] | reflexivity].
      intros _. exists r, rows.
      assert (Hx : exists e, In e (truthy_entries (risks r)) /\
                             re_exposureAmount e = None)
        by (apply (sum_exposure_raises _ 0%Z); eauto).
      destruct Hx as (e & Hin & He). eauto.
Qed.

Lemma X8_identifier_lookup_raises_on_null_exposure_witness :
  truthy "4000" = true /\
  generate_response store_unflagged "search_tin" (Some (Some "4000"))
    "tin 4000" [] = (Raise TypeError, [QTaxpayerByTin "4000"]).
Proof.
  split; [reflexivity|].
  apply (proj1 (X8_identifier_lookup_raises_on_null_exposure
                  store_unflagged "4000" "tin 4000" [] eq_refl)).
  exists unflagged_taxpayer, [], null_risk.
  split; [reflexivity | split; [now left | reflexivity]].
Defined.

(** X9: the text and the payload of an answer agree.  A payload is present
    exactly with a text that reports a result; a list payload is never empty
    and the number announced in the text is its length; the taxpayer payload
    is the record whose risks were counted. *)
Theorem X9_answer_text_agrees_with_payload :
  forall (graph : Graph) (intent : string) (params : Params)
         (user_input : string) (h h' : list Query)
         (msg : Response) (payload : option Payload),
    generate_response graph intent params user_input h =
      (Ok (msg, payload), h') ->
    match payload with
    | None => kind_of msg <> KResult
    | Some (PTaxpayer r) =>
        exists p, msg = FoundTaxpayer p /\
                  pf_risk_count p = List.length (truthy_entries (risks r)) /\
                  pf_tin p = ti_tin (taxpayer r)
    | Some (PSearchResults l) =>
        l <> [] /\ exists name, msg = FoundByName (List.length l) name
    | Some (PRelated l) =>
        l <> [] /\ exists tin, msg = FoundRelated (List.length l) tin
    | Some (PPathway pw) =>
        exists name risk_id e,
          msg = FoundPathway name risk_id (pw_riskName pw) e (pw_detectedDate pw) /\
          pw_exposureAmount pw = Some e
    | Some (PCases l) => l <> [] /\ msg = FoundCases (List.length l)
    | Some (PSector l) =>
        l <> [] /\ exists sector, msg = FoundSector sector (List.length l)
    end.
Proof.
  intros graph intent params user_input h h' msg payload.
  unfold generate_response.
  destruct (String.eqb intent "search_tin").
  { destruct (truthy_opt (get_value params)) as [tin|];
      [|intros H; inversion H; subst; discriminate].
    unfold bind at 1. destruct (tin_lookup_returns graph tin h) as (r & ->).
    destruct r as [r|]; [|intros H; inversion H; subst; discriminate].
    unfold bind, lift, ret.
    destruct (sum_exposure _ _); [|discriminate].
    intros H; inversion H; subst. eexists. repeat split. }
  destruct (String.eqb intent "search_name").
  { unfold bind.
    destruct (name_search_returns graph (get_value_or params "") h) as (r & ->).
    destruct r; intros H; inversion H; subst; [discriminate|].
    split; [discriminate | eauto]. }
  destruct (String.eqb intent "related").
  { destruct (truthy_opt (get_value params)) as [tin|];
      [|intros H; inversion H; subst; discriminate].
    unfold bind. destruct (related_returns graph tin h) as (r & ->).
    destruct r; intros H; inversion H; subst; [discriminate|].
    split; [discriminate | eauto]. }
  destruct (String.eqb intent "pathway").
  { destruct (truthy_opt (get_value params)) as [tin|];
      [|intros H; inversion H; subst; discriminate].
    unfold bind at 1. destruct (tin_lookup_returns graph tin h) as (r & ->).
    destruct r as [r|]; [|intros H; inversion H; subst; discriminate].
    destruct (risks r) as [|[risk|] rest];
      try (intros H; inversion H; subst; discriminate).
    unfold bind.
    destruct (pathway_returns graph tin (re_riskId risk) (h ++ [QTaxpayerByTin tin]))
      as (p & ->).
    destruct p as [pw|]; [|intros H; inversion H; subst; discriminate].
    destruct (pw_exposureAmount pw) as [e|] eqn:E; [|discriminate].
    intros H; inversion H; subst. eauto. }
  destruct (String.eqb intent "high_impact").
  { unfold bind.
    destruct (high_impact_returns graph default_min_exposure h) as (r & ->).
    destruct r; intros H; inversion H; subst; [discriminate|].
    split; [discriminate | reflexivity]. }
  destruct (String.eqb intent "sector_analysis").
  { unfold bind.
    destruct (sector_returns graph (get_value_or params "Manufacturing") h)
      as (r & ->).
    destruct r; intros H; inversion H; subst; [discriminate|].
    split; [discriminate | eauto]. }
  intros H; inversion H; subst; discriminate.
Qed.

Lemma X9_answer_text_agrees_with_payload_witness :
  exists p,
    FoundTaxpayer
      {| pf_name := Some "acme"; pf_tin := Some "1000"; pf_region := None;
         pf_sector := None; pf_status := None; pf_risk_count := 5;
         pf_exposure := 18; pf_it_returns := 0; pf_efris_returns := 0;
         pf_action := "HIGH PRIORITY - Schedule Audit" |} = FoundTaxpayer p /\
    pf_risk_count p = List.length (truthy_entries (risks sample_taxpayer)) /\
    pf_tin p = ti_tin (taxpayer sample_taxpayer).
Proof.
  exact (X9_answer_text_agrees_with_payload store_sample "search_tin"
           (Some (Some "1000")) "tin 1000" [] [QTaxpayerByTin "1000"]
           _ (Some (PTaxpayer sample_taxpayer)) eq_refl).
Defined.

End DispatchMore.

(** ** More on the Cypher queries *)

Module CypherMore.
Import Text Tatis360 Cypher CypherSpec CypherMoreSpec DispatchSpec CypherFacts.
Local Open Scope nat_scope.









Lemma related_rows_unflagged (db : GraphDB) (tin : string) :
  unflagged db tin = true -> related_rows db tin = [].
Proof.
  unfold unflagged, related_rows. generalize (flaggings db) at 1 3.
  intros l H. induction l as [|m ms IH]; [reflexivity|].
  cbn [forallb flat_map] in *. apply andb_true_iff in H. destruct H as (Hm & Hms).
  apply negb_true_iff in Hm. rewrite Hm. now apply IH.
Qed.

Lemma filter_seq_length (f : nat -> bool) (n : nat) :
  List.length (filter f (seq 0 n)) <= n.
Proof.
  rewrite <- (length_seq n 0) at 2. apply filter_length_le.
Qed.

(** X12: a row of the related search shares at least one risk flag and at
    most as many as the graph has; with the 18 risk categories (or fewer) the
    similarity score lies between 5.6 and 100. *)
Theorem X12_similarity_score_range :
  forall (db : GraphDB) (tin : string) (row : RelatedRow),
    In row (query_related db tin) ->
    1 <= rr_sharedRisks row <= List.length (risk_flags db) /\
    (List.length (risk_flags db) <= 18 ->
     (Qmake 56 10 <= rr_similarityScore row <= Qmake 1000 10)%Q).
Proof.
  intros db tin row Hrow.
  destruct (query_related_row db tin row Hrow)
    as (t2 & tp & _ & _ & _ & Hk & H1 & Hs).
  assert (Hle : rr_sharedRisks row <= List.length (risk_flags db)).
  { rewrite Hk. apply filter_seq_length. }
  split; [lia|]. intros H18. rewrite Hs, similarity_tenths.
  assert (56 <= (1000 * Z.of_nat (rr_sharedRisks row) + 9) / 18 <= 1000)%Z.
  { split.
    - apply Z.div_le_lower_bound; lia.
    - assert ((1000 * Z.of_nat (rr_sharedRisks row) + 9) / 18 < 1001)%Z
        by (apply Z.div_lt_upper_bound; lia).
      lia. }
  unfold Qle; cbn [Qnum Qden]. lia.
Qed.

Lemma X12_similarity_score_range_witness :
  exists row,
    In row (query_related sample_db "1000") /\
    1 <= rr_sharedRisks row <= 4 /\
    (Qmake 56 10 <= rr_similarityScore row <= Qmake 1000 10)%Q.
Proof.
  destruct (query_related sample_db "1000") as [|row rest] eqn:E;
    [vm_compute in E; discriminate E|].
  assert (Hin : In row (query_related sample_db "1000"))
    by (rewrite E; now left).
  exists row. split; [now left|].
  destruct (X12_similarity_score_range sample_db "1000" row Hin) as (Hk & Hq).
  split; [exact Hk | apply Hq; vm_compute; lia].
Defined.

(** X13: for an identifier that is unknown, or whose taxpayer has no risk
    flag, the related search has no row and the dispatch answers that no
    related taxpayer was found. *)
Theorem X13_no_related_taxpayers_without_risk_flags :
  forall (db : GraphDB) (fails : list Query -> Query -> bool) (other : Graph)
         (tin user_input : string) (h : list Query),
    unflagged db tin = true -> truthy tin = true ->
    query_related db tin = [] /\
    generate_response (neo4j db fails other) "related" (Some (Some tin))
      user_input h =
    (Ok (NoRelated, None), (h ++ [QRelated tin])%list).
Proof.
  intros db fails other tin user_input h Hu Htin.
  assert (Hq : query_related db tin = []).
  { unfold query_related. now rewrite (related_rows_unflagged db tin Hu). }
  split; [exact Hq|].
  unfold generate_response. cbn [String.eqb Ascii.eqb Bool.eqb].
  unfold truthy_opt, get_value. rewrite Htin.
  unfold find_related_taxpayers, try_except, bind, call, ret.
  cbn [run_related neo4j]. rewrite Hq.
  destruct (fails h (QRelated tin)); reflexivity.
Qed.

Lemma X13_no_related_taxpayers_without_risk_flags_witness :
  query_related sample_db "4000" = [] /\
  generate_response (neo4j sample_db never_fails store_empty) "related"
    (Some (Some "4000")) "related 4000" [] =
  (Ok (NoRelated, None), [QRelated "4000"]).
Proof.
  exact (X13_no_related_taxpayers_without_risk_flags sample_db never_fails
           store_empty "4000" "related 4000" [] eq_refl eq_refl).
Defined.

End CypherMore.

(** ** More on the audit-task operations *)

Module AuditTaskMore.
Import Text AuditTasks AuditTaskSpec AuditTaskMoreSpec TextFacts AuditTaskFacts.

Lemma with_tasks_same (g : TaskGraph) : with_tasks g (tasks g) = g.
Proof. now destruct g. Qed.

Lemma map_unmatched (task_id : string) (f : AuditTask -> AuditTask)
      (ts : list AuditTask) :
  existsb (is_task task_id) ts = false ->
  map (fun t => if is_task task_id t then f t else t) ts = ts.
Proof.
  induction ts as [|t ts IH]; simpl; [reflexivity|].
  intros H. apply orb_false_iff in H. destruct H as (Ht & Hts).
  now rewrite Ht, IH.
Qed.

Lemma set_tasks_unmatched (task_id : string) (f : AuditTask -> AuditTask)
      (g : TaskGraph) :
  matched task_id g = false -> set_tasks task_id f g = g.
Proof.
  unfold matched, set_tasks. intros H.
  now rewrite map_unmatched, with_tasks_same.
Qed.

Lemma filter_unmatched (task_id : string) (ts : list AuditTask) :
  existsb (is_task task_id) ts = false -> filter (is_task task_id) ts = [].
Proof.
  induction ts as [|t ts IH]; simpl; [reflexivity|].
  intros H. apply orb_false_iff in H. destruct H as (Ht & Hts).
  now rewrite Ht, IH.
Qed.

(** X14: an operation on a task identifier that no task has returns [False]
    and leaves the graph as it was. *)
Theorem X14_unknown_task_changes_nothing :
  forall (env : Env) (op : Operation) (task_id : string) (g : TaskGraph),
    addressed op = Some task_id ->
    matched task_id g = false ->
    step env op g = (false, g).
Proof.
  intros env op task_id g Ha Hm.
  destruct op as [d|i s n|i p|i a r|i n|i r|i n]; cbn [addressed] in Ha;
    inversion Ha; subst; clear Ha; cbn [step].
  - unfold update_task_status. destruct (raises env 0); [reflexivity|].
    rewrite (set_tasks_unmatched _ _ _ Hm), Hm.
    destruct (truthy n); [|reflexivity].
    unfold add_task_note. destruct (raises (later env) 0); [reflexivity|].
    cbn [snd]. now rewrite (set_tasks_unmatched _ _ _ Hm).
  - unfold update_task_progress. destruct (raises env 0); [reflexivity|].
    now rewrite (set_tasks_unmatched _ _ _ Hm), Hm.
  - unfold reassign_task. destruct (raises env 0); [reflexivity|].
    unfold matched in Hm. now rewrite (filter_unmatched _ _ Hm).
  - unfold add_task_note. destruct (raises env 0); [reflexivity|].
    now rewrite (set_tasks_unmatched _ _ _ Hm), Hm.
  - unfold link_risk_to_task. destruct (raises env 0); [reflexivity|].
    unfold matched in Hm. now rewrite (filter_unmatched _ _ Hm).
  - unfold complete_task. destruct (raises env 0); [reflexivity|].
    now rewrite (set_tasks_unmatched _ _ _ Hm), Hm.
Qed.

Lemma X14_unknown_task_changes_nothing_witness :
  step (env_at 7 true) (Complete "T9" "done")
       (snd (step (env_at 7 true) (Create sample_data) base_graph)) =
  (false, snd (step (env_at 7 true) (Create sample_data) base_graph)).
Proof.
  exact (X14_unknown_task_changes_nothing (env_at 7 true) (Complete "T9" "done")
           "T9" (snd (step (env_at 7 true) (Create sample_data) base_graph))
           eq_refl eq_refl).
Defined.

Lemma notes_extend_refl (n : option string) : notes_extend n n.
Proof. destruct n as [a|]; simpl; [|exact I]. exists "". now rewrite append_nil_r. Qed.

Lemma notes_extend_trans (a b c : option string) :
  notes_extend a b -> notes_extend b c -> notes_extend a c.
Proof.
  destruct a as [a|], b as [b|], c as [c|]; simpl; try tauto.
  intros (t1 & ->) (t2 & ->). exists (t1 ++ t2). apply append_assoc.
Qed.

Lemma notes_extend_append (n : option string) (note : string) :
  notes_extend n (append_note n note).
Proof. destruct n as [a|]; simpl; [|exact I]. now eexists. Qed.

Lemma kept_refl (t : AuditTask) : kept t t.
Proof. unfold kept. repeat split. apply notes_extend_refl. Qed.

Lemma kept_trans (a b c : AuditTask) : kept a b -> kept b c -> kept a c.
Proof.
  unfold kept. intros (H1 & H2 & H3 & H4) (K1 & K2 & K3 & K4).
  repeat split; try congruence. now apply (notes_extend_trans _ (Notes b)).
Qed.

Lemma map_kept (task_id : string) (f : AuditTask -> AuditTask)
      (ts : list AuditTask) (n : nat) (t : AuditTask) :
  (forall x, kept x (f x)) ->
  nth_error ts n = Some t ->
  exists t', nth_error (map (fun x => if is_task task_id x then f x else x) ts) n
             = Some t' /\ kept t t'.
Proof.
  intros Hf Hn. rewrite nth_error_map, Hn. cbn [option_map].
  eexists. split; [reflexivity|].
  destruct (is_task task_id t); [apply Hf | apply kept_refl].
Qed.

Lemma add_task_note_kept (env : Env) (task_id note : string) (g : TaskGraph)
      (n : nat) (t : AuditTask) :
  nth_error (tasks g) n = Some t ->
  exists t', nth_error (tasks (snd (add_task_note env task_id note g))) n = Some t'
             /\ kept t t'.
Proof.
  intros Hn. unfold add_task_note. destruct (raises env 0).
  - exists t. split; [exact Hn | apply kept_refl].
  - cbn [snd set_tasks with_tasks tasks]. apply map_kept; [|exact Hn].
    intros x. unfold kept. cbn. repeat split. apply notes_extend_append.
Qed.

(** X15: no operation deletes a task or rewrites its history: after any
    operation every task is still at its place, with the same identifier,
    name and creation date, and its notes begin with the notes it had. *)
Theorem X15_tasks_persist_and_notes_only_grow :
  forall (env : Env) (op : Operation) (g : TaskGraph) (n : nat) (t : AuditTask),
    nth_error (tasks g) n = Some t ->
    exists t',
      nth_error (tasks (snd (step env op g))) n = Some t' /\
      TaskID t' = TaskID t /\ TaskName t' = TaskName t /\
      CreatedDate t' = CreatedDate t /\ notes_extend (Notes t) (Notes t').
Proof.
  intros env op g n t Hn.
  assert (Hsame : exists t', nth_error (tasks g) n = Some t' /\ kept t t')
    by (exists t; split; [exact Hn | apply kept_refl]).
  change (exists t', nth_error (tasks (snd (step env op g))) n = Some t' /\
                     kept t t').
  destruct op as [d|i s nt|i p|i a r|i nt|i r|i nt]; cbn [step].
  - unfold create_audit_task. destruct (raises env 0); [exact Hsame|].
    cbn [snd tasks]. exists t. split; [|apply kept_refl].
    rewrite nth_error_app1; [exact Hn|]. apply nth_error_Some. congruence.
  - unfold update_task_status. destruct (raises env 0); [exact Hsame|].
    cbn [snd].
    match goal with
    | |- context [set_tasks i ?f g] =>
        assert (H1 : exists t1, nth_error (tasks (set_tasks i f g)) n = Some t1 /\
                                kept t t1)
    end.
    { cbn [set_tasks with_tasks tasks]. apply map_kept; [|exact Hn].
      intros x. unfold kept. cbn. repeat split. apply notes_extend_refl. }
    destruct (truthy nt); [|exact H1].
    destruct H1 as (t1 & Hn1 & K1).
    destruct (add_task_note_kept (later env) i
                ("Status: " ++ s ++ " - " ++ nt) _ n t1 Hn1) as (t2 & Hn2 & K2).
    exists t2. split; [exact Hn2 | now apply (kept_trans _ t1)].
  - unfold update_task_progress. destruct (raises env 0); [exact Hsame|].
    cbn [snd set_tasks with_tasks tasks]. apply map_kept; [|exact Hn].
    intros x. unfold kept. cbn. repeat split. apply notes_extend_refl.
  - unfold reassign_task. destruct (raises env 0); [exact Hsame|].
    destruct (_ * _ * _); [exact Hsame|].
    cbn [snd tasks]. apply map_kept; [|exact Hn].
    intros x. unfold kept. cbn. repeat split. apply notes_extend_refl.
  - now apply add_task_note_kept.
  - unfold link_risk_to_task. destruct (raises env 0); [exact Hsame|].
    destruct (_ * _); [exact Hsame|].
    cbn [snd tasks]. apply map_kept; [|exact Hn].
    intros x. unfold kept. cbn. repeat split. apply notes_extend_refl.
  - unfold complete_task. destruct (raises env 0); [exact Hsame|].
    cbn [snd set_tasks with_tasks tasks]. apply map_kept; [|exact Hn].
    intros x. unfold kept. cbn. repeat split. apply notes_extend_append.
Qed.

Lemma X15_tasks_persist_and_notes_only_grow_witness :
  let g := snd (step (env_at 7 true) (Create sample_data) base_graph) in
  exists t',
    nth_error (tasks (snd (step (env_at 9 true) (Complete "T0" "all checked") g))) 0
      = Some t' /\
    TaskID t' = "T0" /\ TaskName t' = "Verify returns" /\ CreatedDate t' = 7 /\
    notes_extend (Some "") (Notes t').
Proof.
  intros g.
  exact (X15_tasks_persist_and_notes_only_grow (env_at 9 true)
           (Complete "T0" "all checked") g 0 (new_task (env_at 7 true) sample_data 0)
           eq_refl).
Defined.

Lemma filter_existsb_nil {A : Type} (f : A -> bool) (l : list A) :
  existsb f l = false -> filter f l = [].
Proof.
  induction l as [|x l IH]; simpl; [reflexivity|].
  intros H. apply orb_false_iff in H. destruct H as (Hx & Hl).
  now rewrite Hx, IH.
Qed.

Lemma filter_existsb_cons {A : Type} (f : A -> bool) (l : list A) :
  existsb f l = true -> exists x xs, filter f l = x :: xs.
Proof.
  induction l as [|x l IH]; simpl; [discriminate|].
  destruct (f x); [intros _; eauto | exact IH].
Qed.

(** X16: [create_audit_task] creates one task for each pair of a taxpayer
    and an auditor with the given identifiers, whether or not a risk flag is
    linked, but it returns [True] only when a task was created and a risk flag
    of the graph is named in the task data: without such a risk the task is
    created and the caller is told that the creation failed. *)
Theorem X16_create_reports_success_only_with_a_risk_link :
  forall (env : Env) (d : TaskData) (g : TaskGraph),
    raises env 0 = false ->
    let pairs := count_eq (taxpayer_tin d) (taxpayer_tins g) *
                 count_eq (auditor_id d) (auditor_ids g) in
    tasks (snd (create_audit_task env d g)) =
      (tasks g ++ map (new_task env d) (seq 0 pairs))%list /\
    (fst (create_audit_task env d g) = true <->
     1 <= pairs /\ links_a_risk d g = true) /\
    (1 <= pairs -> links_a_risk d g = false ->
     fst (create_audit_task env d g) = false /\
     List.length (tasks g) < List.length (tasks (snd (create_audit_task env d g)))).
Proof.
  intros env d g Hup pairs. unfold create_audit_task. rewrite Hup.
  fold pairs. cbn [fst snd tasks]. split; [reflexivity|].
  assert (Hiff :
    (match map (new_task env d) (seq 0 pairs),
           filter (fun r => existsb (String.eqb r) (get_or (td_risk_ids d) []))
                  (risk_ids g) with
     | _ :: _, _ :: _ => true
     | _, _ => false
     end = true) <-> 1 <= pairs /\ links_a_risk d g = true).
  { unfold links_a_risk. destruct pairs as [|k]; cbn [seq map].
    - split; [discriminate | lia].
    - destruct (existsb _ (risk_ids g)) eqn:E.
      + destruct (filter_existsb_cons _ _ E) as (x & xs & ->).
        split; [intros _; split; [lia | reflexivity] | reflexivity].
      + rewrite (filter_existsb_nil _ _ E). split; [discriminate | tauto]. }
  split; [exact Hiff|].
  intros Hp Hl. split.
  - destruct Hiff as (Hto & _).
    match goal with |- ?b = false => destruct b; [|reflexivity] end.
    destruct (Hto eq_refl) as (_ & Hl'). congruence.
  - rewrite length_app, length_map, length_seq. lia.
Qed.

Lemma X16_create_reports_success_only_with_a_risk_link_witness :
  let d := {| taxpayer_tin := "1000"; auditor_id := "A1";
              task_name := "Verify returns"; due_date := 0%Z;
              description := None; priority := None; exposure := None;
              notes := None; assigned_by := None;
              td_risk_ids := Some ["a"; "b"] |} in
  fst (create_audit_task (env_at 7 true) d base_graph) = false /\
  List.length (tasks base_graph) <
  List.length (tasks (snd (create_audit_task (env_at 7 true) d base_graph))).
Proof.
  intros d.
  apply (X16_create_reports_success_only_with_a_risk_link
           (env_at 7 true) d base_graph eq_refl); [vm_compute; lia | reflexivity].
Defined.

Lemma filter_filter_out {A : Type} (f : A -> bool) (l : list A) :
  filter f (filter (fun x => negb (f x)) l) = [].
Proof.
  induction l as [|x l IH]; simpl; [reflexivity|].
  destruct (f x) eqn:E; simpl; [exact IH | now rewrite E].
Qed.

Lemma filter_repeat {A : Type} (f : A -> bool) (x : A) (n : nat) :
  filter f (repeat x n) = if f x then repeat x n else [].
Proof.
  induction n as [|n IH]; simpl; [now destruct (f x)|].
  rewrite IH. now destruct (f x).
Qed.

Lemma map_fst_repeat {A B : Type} (a : A) (b : B) (n : nat) :
  map fst (repeat (a, b) n) = repeat a n.
Proof. induction n as [|n IH]; simpl; [reflexivity | now rewrite IH]. Qed.

Lemma filter_other (task_id other : string) (l : list (string * string)) :
  other <> task_id ->
  filter (fun a => String.eqb (snd a) other)
         (filter (fun a => negb (String.eqb (snd a) task_id)) l) =
  filter (fun a => String.eqb (snd a) other) l.
Proof.
  intros Hne. induction l as [|x l IH]; simpl; [reflexivity|].
  destruct (String.eqb_spec (snd x) task_id) as [E|E]; simpl.
  - destruct (String.eqb_spec (snd x) other) as [E'|E']; [congruence | exact IH].
  - now rewrite IH.
Qed.

Lemma count_eq_In (x : string) (l : list string) :
  1 <= count_eq x l -> In x l.
Proof.
  unfold count_eq. induction l as [|y l IH]; simpl; [lia|].
  destruct (String.eqb_spec x y) as [->|_]; [now left | right; now apply IH].
Qed.

(** X17: after a successful reassignment the task is assigned to the new
    auditor only (every earlier assignment is gone) and the new auditor is an
    auditor of the graph; the assignments of the other tasks are untouched,
    and a reassignment that returns [False] changes nothing. *)
Theorem X17_reassignment_replaces_the_assignee :
  forall (env : Env) (task_id new_auditor_id reason : string) (g : TaskGraph),
    let r := reassign_task env task_id new_auditor_id reason g in
    (fst r = true ->
     assignees task_id (snd r) <> [] /\
     Forall (eq new_auditor_id) (assignees task_id (snd r)) /\
     In new_auditor_id (auditor_ids g) /\ matched task_id g = true) /\
    (forall other, other <> task_id ->
                   assignees other (snd r) = assignees other g) /\
    (fst r = false -> snd r = g).
Proof.
  intros env task_id new_auditor_id reason g. cbv zeta.
  unfold reassign_task. destruct (raises env 0).
  { cbn [fst snd]. repeat split; try discriminate; reflexivity. }
  set (old := filter (fun a => String.eqb (snd a) task_id) (assigned_to g)).
  set (nt := List.length (filter (is_task task_id) (tasks g))).
  set (na := count_eq new_auditor_id (auditor_ids g)).
  destruct (nt * List.length old * na) as [|k] eqn:E.
  { cbn [fst snd]. repeat split; try discriminate; reflexivity. }
  cbn [fst snd]. unfold assignees. cbn [assigned_to]. split; [|split].
  - intros _. rewrite filter_app, filter_filter_out, filter_repeat.
    cbn [snd app]. rewrite String.eqb_refl, map_fst_repeat.
    split; [discriminate|]. split; [|split].
    + apply Forall_forall. intros x Hx. symmetry. now apply repeat_spec in Hx.
    + apply count_eq_In. fold na. lia.
    + unfold matched. destruct (existsb (is_task task_id) (tasks g)) eqn:M;
        [reflexivity|].
      unfold nt in E. rewrite (filter_unmatched _ _ M) in E. discriminate E.
  - intros other Hne. rewrite filter_app, (filter_other _ _ _ Hne), filter_repeat.
    cbn [snd]. destruct (String.eqb_spec task_id other) as [Heq|_];
      [congruence|]. now rewrite app_nil_r.
  - discriminate.
Qed.

Lemma X17_reassignment_replaces_the_assignee_witness :
  let g0 := {| tasks := []; taxpayer_tins := ["1000"]; auditor_ids := ["A1"; "A2"];
               risk_ids := ["R01"]; assigned_to := []; targets := [];
               linked_to := [] |} in
  let g := snd (step (env_at 7 true) (Create sample_data) g0) in
  let r := reassign_task (env_at 8 true) "T0" "A2" "leave" g in
  assignees "T0" g = ["A1"] /\ assignees "T0" (snd r) = ["A2"] /\
  Forall (eq "A2") (assignees "T0" (snd r)).
Proof.
  intros g0 g r. split; [reflexivity|]. split; [reflexivity|].
  exact (proj1 (proj2 (proj1 (X17_reassignment_replaces_the_assignee
                                (env_at 8 true) "T0" "A2" "leave" g) eq_refl))).
Defined.

End AuditTaskMore.

(** ** The identifier lookup on the graph *)

Module CypherTinFacts.
Import Text Tatis360 Cypher CypherSpec CypherMoreSpec MoreSpec DispatchSpec
       CypherTin CypherFacts.
Local Open Scope nat_scope.

Lemma combine_seq_In {A : Type} (l : list A) (a i : nat) (x : A) :
  In (i, x) (combine (seq a (List.length l)) l) <->
  a <= i /\ nth_error l (i - a) = Some x.
Proof.
  revert a. induction l as [|y l IH]; intros a; cbn [List.length seq combine In].
  - split; [tauto|]. intros (_ & H). now destruct (i - a).
  - rewrite IH. split.
    + intros [H | (Hle & Hn)].
      * inversion H; subst. rewrite Nat.sub_diag. now split.
      * split; [lia|]. replace (i - a) with (S (i - S a)) by lia. exact Hn.
    + intros (Hle & Hn). destruct (Nat.eq_dec a i) as [->|Hne].
      * left. rewrite Nat.sub_diag in Hn. cbn in Hn. congruence.
      * right. split; [lia|].
        replace (i - a) with (S (i - S a)) in Hn by lia. exact Hn.
Qed.

Lemma filter_all_false {A : Type} (f : A -> bool) (l : list A) :
  (forall x, In x l -> f x = false) -> filter f l = [].
Proof.
  induction l as [|x l IH]; intros H; simpl; [reflexivity|].
  rewrite (H x (or_introl eq_refl)). apply IH. intros y Hy. apply H. now right.
Qed.

Lemma optional_inhabited {A : Type} (l : list A) : exists x, In x (optional l).
Proof. destruct l as [|a l]; [exists None | exists (Some a)]; now left. Qed.

Lemma nodup_constant {A : Type} (dec : forall x y : A, {x = y} + {x <> y})
      (a : A) (l : list A) :
  l <> [] -> (forall x, In x l -> x = a) -> nodup dec l = [a].
Proof.
  induction l as [|x l IH]; intros Hne Hall; [congruence|].
  assert (x = a) by (apply Hall; now left). subst x.
  destruct l as [|y l]; [reflexivity|].
  assert (Hin : In a (y :: l)).
  { left. apply Hall. right. now left. }
  cbn [nodup]. destruct (in_dec dec a (y :: l)) as [_|Hn]; [|contradiction].
  apply IH; [discriminate|]. intros z Hz. apply Hall. now right.
Qed.

(** The rows of a taxpayer without risk flag carry no flagging. *)
Lemma tin_rows_unflagged (db : GraphDB) (fl : Filings) (tin : string) (r : TinRow) :
  unflagged db tin = true -> In r (tin_rows db fl tin) -> tr_flagged r = None.
Proof.
  unfold unflagged, tin_rows. intros Hu Hr. rewrite forallb_forall in Hu.
  apply in_flat_map in Hr. destruct Hr as ((i & t) & Hit & Hr).
  apply combine_seq_In in Hit. destruct Hit as (_ & Hn). rewrite Nat.sub_0_r in Hn.
  destruct (tin_is tin t) eqn:Ht; [|easy].
  rewrite (filter_all_false (fun m => f_t m =? i)) in Hr.
  - cbn [optional flat_map] in Hr. rewrite app_nil_r in Hr.
    apply in_flat_map in Hr. destruct Hr as (ir & _ & Hr).
    apply in_map_iff in Hr. destruct Hr as (er & <- & _). reflexivity.
  - intros m Hm. destruct (Nat.eqb_spec (f_t m) i) as [E|_]; [|reflexivity].
    exfalso. specialize (Hu m Hm). apply negb_true_iff in Hu.
    destruct (flaggings_spec db m Hm) as (Hnth & _).
    rewrite E, Hn in Hnth. inversion Hnth; subst. congruence.
Qed.

Lemma tin_rows_known (db : GraphDB) (fl : Filings) (tin : string) :
  known db tin = true -> tin_rows db fl tin <> [].
Proof.
  unfold known, tin_rows. intros Hk. apply existsb_exists in Hk.
  destruct Hk as (t & Hin & Ht). apply In_nth_error in Hin.
  destruct Hin as (i & Hn).
  destruct (optional_inhabited (filter (fun m => f_t m =? i) (flaggings db)))
    as (f & Hf).
  destruct (optional_inhabited (returns_of i (filed fl))) as (ir & Hir).
  destruct (optional_inhabited (returns_of i (reported fl))) as (er & Her).
  set (r := {| tr_info := info_of fl i t; tr_flagged := f; tr_it := ir;
               tr_efris := er |}).
  intros Hnil.
  assert (Hr : In r (flat_map
            (fun it : nat * Taxpayer =>
               let (i, t) := it in
               if tin_is tin t then
                 flat_map
                   (fun f =>
                      flat_map
                        (fun ir =>
                           map (fun er => {| tr_info := info_of fl i t;
                                             tr_flagged := f; tr_it := ir;
                                             tr_efris := er |})
                               (optional (returns_of i (reported fl))))
                        (optional (returns_of i (filed fl))))
                   (optional (filter (fun m => f_t m =? i) (flaggings db)))
               else [])
            (combine (seq 0 (List.length (taxpayers db))) (taxpayers db)))).
  { apply in_flat_map. exists (i, t). split.
    - apply combine_seq_In. split; [lia|]. now rewrite Nat.sub_0_r.
    - rewrite Ht. apply in_flat_map. exists f. split; [exact Hf|].
      apply in_flat_map. exists ir. split; [exact Hir|].
      apply in_map_iff. now exists er. }
  rewrite Hnil in Hr. exact Hr.
Qed.

Lemma query_tin_unflagged (db : GraphDB) (fl : Filings) (tin : string) :
  known db tin = true -> unflagged db tin = true ->
  exists r rest,
    query_tin db fl tin = r :: rest /\ risks r = [Some null_risk].
Proof.
  intros Hk Hu. unfold query_tin.
  set (rows := tin_rows db fl tin).
  assert (Hrows : rows <> []) by (now apply tin_rows_known).
  destruct (nodup info_eq_dec (map tr_info rows)) as [|k ks] eqn:E.
  { exfalso. destruct rows as [|r0 rows']; [congruence|].
    assert (Hin : In (tr_info r0) (nodup info_eq_dec (map tr_info (r0 :: rows'))))
      by (apply nodup_In; now left).
    rewrite E in Hin. exact Hin. }
  exists (tin_group rows k), (map (tin_group rows) ks). split; [reflexivity|].
  assert (Hk' : In k (map tr_info rows)).
  { apply (nodup_In info_eq_dec). rewrite E. now left. }
  apply in_map_iff in Hk'. destruct Hk' as (r0 & Hr0 & Hin0).
  unfold tin_group. cbn [risks].
  rewrite (nodup_constant risk_entry_eq_dec null_risk); [reflexivity| |].
  - intros Hnil. apply map_eq_nil in Hnil.
    assert (Hm : In r0 (filter (fun r => same_info (tr_info r) k) rows)).
    { apply filter_In. split; [exact Hin0|]. unfold same_info.
      rewrite Hr0. now destruct (info_eq_dec k k). }
    rewrite Hnil in Hm. exact Hm.
  - intros x Hx. apply in_map_iff in Hx. destruct Hx as (r & <- & Hr).
    apply filter_In in Hr. destruct Hr as (Hr & _).
    now rewrite (tin_rows_unflagged db fl tin r Hu Hr).
Qed.

(** X18: the identifier lookup of a taxpayer that the graph knows and that no
    risk flags ends in a [TypeError]: the query returns the taxpayer with one
    risk entry without values (the map built from the [OPTIONAL MATCH] that
    found nothing), and the sum of the exposures adds its [None]. *)
Theorem X18_lookup_of_a_taxpayer_without_risk_raises :
  forall (db : GraphDB) (fl : Filings) (fails : list Query -> Query -> bool)
         (other : Graph) (tin user_input : string) (h : list Query),
    truthy tin = true ->
    fails h (QTaxpayerByTin tin) = false ->
    known db tin = true ->
    unflagged db tin = true ->
    generate_response (neo4j_tin db fl fails other) "search_tin"
      (Some (Some tin)) user_input h =
    (Raise TypeError, (h ++ [QTaxpayerByTin tin])%list).
Proof.
  intros db fl fails other tin user_input h Htin Hup Hk Hu.
  destruct (query_tin_unflagged db fl tin Hk Hu) as (r & rest & Hq & Hr).
  unfold generate_response. cbn [String.eqb Ascii.eqb Bool.eqb].
  unfold truthy_opt, get_value. rewrite Htin.
  unfold search_taxpayer_by_tin, try_except, bind, call, ret, lift.
  cbn [run_tin neo4j_tin]. rewrite Hup, Hq. cbn [first_row]. rewrite Hr.
  reflexivity.
Qed.

Lemma X18_lookup_of_a_taxpayer_without_risk_raises_witness :
  generate_response (neo4j_tin sample_db no_filings never_fails store_empty)
    (fst (detect_intent "TIN 4000")) (snd (detect_intent "TIN 4000"))
    "TIN 4000" [] =
  (Raise TypeError, [QTaxpayerByTin "4000"]).
Proof.
  exact (X18_lookup_of_a_taxpayer_without_risk_raises sample_db no_filings
           never_fails store_empty "4000" "TIN 4000" []
           eq_refl eq_refl eq_refl eq_refl).
Defined.

Lemma truthy_entries_some {A : Type} (l : list A) :
  truthy_entries (map Some l) = l.
Proof. induction l as [|x l IH]; simpl; [reflexivity | now rewrite IH]. Qed.

Lemma nodup_inhabited {A : Type} (dec : forall x y : A, {x = y} + {x <> y})
      (l : list A) :
  l <> [] -> 1 <= List.length (nodup dec l).
Proof.
  destruct l as [|x l]; [congruence|]. intros _.
  assert (Hin : In x (nodup dec (x :: l))) by (apply nodup_In; now left).
  destruct (nodup dec (x :: l)); [easy | simpl; lia].
Qed.

Lemma query_tin_counts (db : GraphDB) (fl : Filings) (tin : string) (r : TinResult) :
  In r (query_tin db fl tin) ->
  1 <= List.length (truthy_entries (risks r)) /\
  1 <= List.length (truthy_entries (itReturns r)) /\
  1 <= List.length (truthy_entries (efrisReturns r)).
Proof.
  unfold query_tin. set (rows := tin_rows db fl tin). intros Hr.
  apply in_map_iff in Hr. destruct Hr as (k & <- & Hk).
  apply nodup_In, in_map_iff in Hk. destruct Hk as (r0 & Hr0 & Hin0).
  assert (Hm : filter (fun r => same_info (tr_info r) k) rows <> []).
  { intros Hnil.
    assert (Hin : In r0 (filter (fun r => same_info (tr_info r) k) rows)).
    { apply filter_In. split; [exact Hin0|]. unfold same_info.
      rewrite Hr0. now destruct (info_eq_dec k k). }
    rewrite Hnil in Hin. exact Hin. }
  unfold tin_group. cbn [risks itReturns efrisReturns].
  rewrite !truthy_entries_some.
  repeat split; apply nodup_inhabited; intros Hnil; apply map_eq_nil in Hnil;
    contradiction.
Qed.

(** X19: a taxpayer found on the graph is never reported with zero flagged
    risks, zero income tax returns or zero EFRIS returns: each collected list
    has at least one entry, so that a taxpayer without returns is shown with
    one return of each kind. *)
Theorem X19_found_taxpayer_counts_are_never_zero :
  forall (db : GraphDB) (fl : Filings) (fails : list Query -> Query -> bool)
         (other : Graph) (params : Params) (user_input : string)
         (h h' : list Query) (p : Profile) (payload : option Payload),
    generate_response (neo4j_tin db fl fails other) "search_tin" params
      user_input h = (Ok (FoundTaxpayer p, payload), h') ->
    1 <= pf_risk_count p /\ 1 <= pf_it_returns p /\ 1 <= pf_efris_returns p.
Proof.
  intros db fl fails other params user_input h h' p payload.
  unfold generate_response. cbn [String.eqb Ascii.eqb Bool.eqb].
  destruct (truthy_opt (get_value params)) as [tin|]; [|discriminate].
  unfold search_taxpayer_by_tin, try_except, bind, call, ret, lift.
  cbn [run_tin neo4j_tin].
  destruct (fails h (QTaxpayerByTin tin)); [discriminate|].
  destruct (query_tin db fl tin) as [|r rest] eqn:Hq; [discriminate|].
  cbn [first_row].
  destruct (sum_exposure (truthy_entries (risks r)) 0); [|discriminate].
  intros H; inversion H; subst. cbn [pf_risk_count pf_it_returns pf_efris_returns].
  apply (query_tin_counts db fl tin). rewrite Hq. now left.
Qed.

Lemma X19_found_taxpayer_counts_are_never_zero_witness :
  exists p,
    generate_response (neo4j_tin sample_db no_filings never_fails store_empty)
      "search_tin" (Some (Some "1000")) "tin 1000" [] =
      (Ok (FoundTaxpayer p, Some (PTaxpayer (hd unflagged_taxpayer
                                    (query_tin sample_db no_filings "1000")))),
       [QTaxpayerByTin "1000"]) /\
    pf_risk_count p = 3 /\ pf_it_returns p = 1 /\ pf_efris_returns p = 1 /\
    1 <= pf_risk_count p /\ 1 <= pf_it_returns p /\ 1 <= pf_efris_returns p.
Proof.
  eexists. split; [vm_compute; reflexivity|].
  split; [reflexivity|]. split; [reflexivity|]. split; [reflexivity|].
  eapply (X19_found_taxpayer_counts_are_never_zero sample_db no_filings
            never_fails store_empty (Some (Some "1000")) "tin 1000" []).
  vm_compute. reflexivity.
Defined.

End CypherTinFacts.
